(** * DendroHeat: heatmap and dendrogram layout

    A shallow embedding of [src/DendroHeat.py] (class [DendroHeat]) and the
    properties of its layout code: row reordering by the clustering leaf order
    ([addData] with [type='linkage']), construction of the flat cell lists
    ([_createHeatmap]) and rescaling of the tree coordinates
    ([_createDendrogram]).

    Modelling decisions.
    - Numbers.  Table values are exact rationals ([Q]).  Results of pandas /
      numpy arithmetic are [fnum]: a rational, [+inf], [-inf] or [NaN], with
      the IEEE rules for division by zero ([0/0 = NaN], [x/0 = +-inf]) and for
      products with infinities.  Arithmetic on finite values is exact: the
      wrap-around of [int64] columns and the overflow and rounding of
      [float64] are not modelled.  Statements about computed intensities are
      therefore made for tables within [value_bound] ([in_value_range]), where
      neither a wrap nor an overflow occurs, and in a form that rounding keeps
      (an order, the values 0 and 1, [NaN]).
    - Exceptions.  Every method returns an [outcome]: it either returns with
      the new instance state or raises a Python exception, and in that case the
      state reached at the [raise] is kept.
    - Collaborators.  [pd.read_excel], [pd.read_csv], scipy's [dendrogram] and
      Bokeh's final [show] are parameters of the model, and each may raise;
      the entries of [dendro['ivl']] are taken as the integer positions handed
      to [DataFrame.iloc].  A Bokeh figure records its ranges, its rectangle
      source and the lines drawn on it. *)

From Stdlib Require Import String List ZArith QArith Qminmax Lia Lqa Bool
  Permutation Arith.
Import ListNotations.
Close Scope Q_scope.

Set Implicit Arguments.

(** ** Numbers *)

Inductive fnum : Type :=
| Fin (q : Q)
| PInf
| NInf
| NaN.

(** The infinity carrying the sign of [q]; [NaN] when [q] is zero. *)
Definition inf_of_sign (q : Q) : fnum :=
  match (q ?= 0)%Q with
  | Eq => NaN
  | Gt => PInf
  | Lt => NInf
  end.

Definition fneg (a : fnum) : fnum :=
  match a with
  | Fin q => Fin (- q)%Q
  | PInf => NInf
  | NInf => PInf
  | NaN => NaN
  end.

Definition fsub (a b : fnum) : fnum :=
  match a, b with
  | NaN, _ | _, NaN => NaN
  | Fin x, Fin y => Fin (x - y)%Q
  | PInf, PInf | NInf, NInf => NaN
  | PInf, _ | _, NInf => PInf
  | NInf, _ | _, PInf => NInf
  end.

Definition fmul (a b : fnum) : fnum :=
  match a, b with
  | NaN, _ | _, NaN => NaN
  | Fin x, Fin y => Fin (x * y)%Q
  | Fin x, PInf | PInf, Fin x => inf_of_sign x
  | Fin x, NInf | NInf, Fin x => inf_of_sign (- x)%Q
  | PInf, PInf | NInf, NInf => PInf
  | PInf, NInf | NInf, PInf => NInf
  end.

Definition fdiv (a b : fnum) : fnum :=
  match a, b with
  | NaN, _ | _, NaN => NaN
  | Fin x, Fin y => if Qeq_bool y 0 then inf_of_sign x else Fin (x / y)%Q
  | Fin _, PInf | Fin _, NInf => Fin 0%Q
  | PInf, Fin y => if Qle_bool 0 y then PInf else NInf
  | NInf, Fin y => if Qle_bool 0 y then NInf else PInf
  | PInf, _ | NInf, _ => NaN
  end.

(** [a < b] on values that are not [NaN]. *)
Definition fltb (a b : fnum) : bool :=
  match a, b with
  | NaN, _ | _, NaN => false
  | _, NInf => false
  | NInf, _ => true
  | PInf, _ => false
  | _, PInf => true
  | Fin x, Fin y => negb (Qle_bool y x)
  end.

(** The maximum pandas computes: [NaN] entries are skipped, and the result is
    [NaN] when nothing is left. *)
Definition nanmax2 (acc x : fnum) : fnum :=
  match acc, x with
  | _, NaN => acc
  | NaN, _ => x
  | _, _ => if fltb acc x then x else acc
  end.

Definition nanmax (l : list fnum) : fnum := fold_left nanmax2 l NaN.

(** Python's builtin [max] on a list of floats: [None] stands for the
    [ValueError] on an empty list; the first largest element is returned. *)
Definition pymax (l : list Q) : option Q :=
  match l with
  | [] => None
  | x :: t => Some (fold_left (fun m y => if Qle_bool y m then m else y) t x)
  end.

(** [0 <= a <= 1], false on [NaN] and the infinities. *)
Definition in_unit (a : fnum) : bool :=
  match a with
  | Fin q => Qle_bool 0 q && Qle_bool q 1
  | _ => false
  end.

(** ** Python exceptions raised by the modelled code *)

Inductive Exn : Type :=
| FileNotFoundError
| AssertionError
| AttributeError
| UnboundLocalError
| IndexError
| OverflowError
| KeyError
| ValueError
| ReadError (msg : string)
| ClusterError (msg : string).

(** ** Tables *)

Record Frame (A : Type) : Type := mkFrame {
  index : list string;
  columns : list string;
  values : list (list A)
}.

Definition DataFrame : Type := Frame Q.

Definition nrows {A} (df : Frame A) : nat := length (index df).
Definition ncols {A} (df : Frame A) : nat := length (columns df).

(** Rectangular: one value row per label, one value per column. *)
Definition rectangular {A} (df : Frame A) : Prop :=
  length (values df) = nrows df /\
  Forall (fun r => length r = ncols df) (values df).

(** [df.min(axis=0)], [df.max(axis=0)]: per column, [NaN] on an empty
    column. *)
Definition column (j : nat) (df : DataFrame) : list Q :=
  map (fun r => nth j r 0%Q) (values df).

Definition series_min (l : list Q) : fnum :=
  match l with
  | [] => NaN
  | x :: t => Fin (fold_left Qmin t x)
  end.

Definition series_max (l : list Q) : fnum :=
  match l with
  | [] => NaN
  | x :: t => Fin (fold_left Qmax t x)
  end.

Definition df_min (df : DataFrame) : list fnum :=
  map (fun j => series_min (column j df)) (seq 0 (ncols df)).

Definition df_max (df : DataFrame) : list fnum :=
  map (fun j => series_max (column j df)) (seq 0 (ncols df)).

(** [(df - df.min(axis=0)) / (df.max(axis=0) - df.min(axis=0))] *)
Definition normalize_row (mins maxs : list fnum) (r : list Q) : list fnum :=
  map (fun '(v, (mn, mx)) => fdiv (fsub (Fin v) mn) (fsub mx mn))
      (combine r (combine mins maxs)).

Definition normalize (df : DataFrame) : Frame fnum :=
  {| index := index df;
     columns := columns df;
     values := map (normalize_row (df_min df) (df_max df)) (values df) |}.

(** [df.loc[m]]: the rows labelled [m].  One row gives a Series, several give
    a DataFrame (which has no [tolist]). *)
Inductive LocResult (A : Type) : Type :=
| LocSeries (r : list A)
| LocFrame (rs : list (list A))
| LocKeyError.
Arguments LocKeyError {A}.

Definition rows_labelled {A} (df : Frame A) (m : string) : list (list A) :=
  map snd (filter (fun p => String.eqb (fst p) m)
                  (combine (index df) (values df))).

Definition loc {A} (df : Frame A) (m : string) : LocResult A :=
  match rows_labelled df m with
  | [] => LocKeyError
  | [r] => LocSeries r
  | rs => LocFrame rs
  end.

(** [df.iloc[positions]]: positions from [-n] to [n-1] are accepted, negative
    ones count from the end; [None] stands for the exception of pandas, which
    [iloc_error] names. *)
Definition iloc_position (n : nat) (k : Z) : option nat :=
  if ((0 <=? k) && (k <? Z.of_nat n))%Z then Some (Z.to_nat k)
  else if ((- Z.of_nat n <=? k) && (k <? 0))%Z then Some (Z.to_nat (Z.of_nat n + k))
  else None.

Fixpoint iloc_positions (n : nat) (ks : list Z) : option (list nat) :=
  match ks with
  | [] => Some []
  | k :: ks' =>
      match iloc_position n k, iloc_positions n ks' with
      | Some p, Some ps => Some (p :: ps)
      | _, _ => None
      end
  end.

Definition take_rows {A} (df : Frame A) (ps : list nat) : Frame A :=
  {| index := map (fun p => nth p (index df) EmptyString) ps;
     columns := columns df;
     values := map (fun p => nth p (values df) []) ps |}.

Definition iloc {A} (df : Frame A) (ks : list Z) : option (Frame A) :=
  match iloc_positions (nrows df) ks with
  | Some ps => Some (take_rows df ps)
  | None => None
  end.

(** The exception of a refused selection.  The list of positions is made an
    array of machine integers before any bound is looked at: a position that
    fits neither a signed nor an unsigned 64-bit integer stops this with an
    [OverflowError], and a refused position that fits is an [IndexError]. *)
Definition fits_machine (k : Z) : bool :=
  ((- 2 ^ 63 <=? k) && (k <? 2 ^ 64))%Z.

Definition iloc_error (ks : list Z) : Exn :=
  if forallb fits_machine ks then IndexError else OverflowError.



(** ** The cell lists built by [_createHeatmap] *)

Record Data : Type := mkData {
  name : list string;
  attribute : list string;
  colors : list string;
  xs : list Q;
  ys : list Q;
  value : list Q;
  alpha : list fnum
}.

Definition crange : list string :=
  ["#66ff66"; "#00ffff"; "#000099"; "#6600ff"; "#ff00ff";
   "#990099"; "#ff0066"; "#993333"; "#ff9933"; "#ffff00"]%string.

Definition half : Q := 1 # 2.

(** [np.arange(0.5, n + 0.5)] *)
Definition arange_half (n : nat) : list Q :=
  map (fun j => (inject_Z (Z.of_nat j) + half)%Q) (seq 0 n).

Definition empty_data : Data :=
  {| name := []; attribute := []; colors := []; xs := []; ys := [];
     value := []; alpha := [] |}.

(** The body of [for i, m in enumerate(df.index)], over the pairs still to be
    visited. *)
Fixpoint heatmap_loop (df : DataFrame) (ndf : Frame fnum)
    (todo : list (nat * string)) (acc : Data) : Exn + Data :=
  match todo with
  | [] => inr acc
  | (i, m) :: rest =>
      match loc df m, loc ndf m with
      | LocSeries vrow, LocSeries arow =>
          heatmap_loop df ndf rest
            {| name := name acc ++ repeat m (ncols df);
               attribute := attribute acc ++ columns df;
               colors := colors acc ++ (crange ++ crange);
               xs := xs acc ++ arange_half (ncols df);
               ys := ys acc ++ repeat (inject_Z (Z.of_nat i) + half)%Q (ncols df);
               value := value acc ++ vrow;
               alpha := alpha acc ++ arow |}
      | LocKeyError, _ | LocSeries _, LocKeyError => inl KeyError
      | _, _ => inl AttributeError
      end
  end.

Definition enumerate {A} (l : list A) : list (nat * A) :=
  combine (seq 0 (length l)) l.

(** The lists stored in [self.data] for the table [df]. *)
Definition build (df : DataFrame) : Exn + Data :=
  heatmap_loop df (normalize df) (enumerate (index df)) empty_data.

(** ** The instance and its methods *)

(** What Bokeh is given: the figure's ranges, the hover tool, the source of
    the rectangles and the lines drawn so far (x list, y list). *)
Record Figure : Type := mkFigure {
  x_range : list string;
  y_range : nat * nat;
  hover : bool;
  rect_source : Data;
  lines : list (list fnum * list fnum)
}.

(** [self.heatmap]: the initial [''], a table, or the figure that replaces the
    table once it has been drawn; [None] is what the guard of the method tests
    for. *)
Inductive HeatmapField : Type :=
| HNone
| HStr (s : string)
| HTable (df : DataFrame)
| HFigure (f : Figure).

Inductive LinkageField : Type :=
| LNone
| LStr (s : string)
| LTable (df : DataFrame).

(** [self.icoord], [self.dcoord]: the initial [''], the lists of scipy, or
    the DataFrame made of them. *)
Inductive CoordField : Type :=
| CStr (s : string)
| CList (l : list (list Q))
| CFrame (f : list (list fnum)).

Record DendroHeat : Type := mkDendroHeat {
  heatmap : HeatmapField;
  linkage : LinkageField;
  icoord : CoordField;
  dcoord : CoordField;
  data : option Data;
  source : option Data
}.

(** [__init__]; [self.data] and [self.source] do not exist yet. *)
Definition __init__ : DendroHeat :=
  {| heatmap := HStr ""; linkage := LStr ""; icoord := CStr "";
     dcoord := CStr ""; data := None; source := None |}.

Inductive outcome : Type :=
| Returns (s : DendroHeat)
| Raises (e : Exn) (s : DendroHeat).

Definition and_then (o : outcome) (k : DendroHeat -> outcome) : outcome :=
  match o with
  | Returns s => k s
  | Raises e s => Raises e s
  end.

Definition final_state (o : outcome) : DendroHeat :=
  match o with
  | Returns s => s
  | Raises _ s => s
  end.

Definition set_heatmap (h : HeatmapField) (s : DendroHeat) : DendroHeat :=
  {| heatmap := h; linkage := linkage s; icoord := icoord s;
     dcoord := dcoord s; data := data s; source := source s |}.

Definition set_icoord (c : CoordField) (s : DendroHeat) : DendroHeat :=
  {| heatmap := heatmap s; linkage := linkage s; icoord := c;
     dcoord := dcoord s; data := data s; source := source s |}.

Definition set_dcoord (c : CoordField) (s : DendroHeat) : DendroHeat :=
  {| heatmap := heatmap s; linkage := linkage s; icoord := icoord s;
     dcoord := c; data := data s; source := source s |}.

(** [s.endswith(suffix)] *)
Definition endswith (s suffix : string) : bool :=
  (String.length suffix <=? String.length s) &&
  String.eqb
    (substring (String.length s - String.length suffix) (String.length suffix) s)
    suffix.

(** The dictionary returned by scipy's [dendrogram(..., no_plot=True)], as far
    as it is read. *)
Record Dendro : Type := mkDendro {
  dn_icoord : list (list Q);
  dn_dcoord : list (list Q);
  dn_ivl : list Z
}.

(** Where Bokeh is told to put the figure: [output_notebook()],
    [output_file(name, title)], or whatever was set before. *)
Inductive OutputTarget : Type :=
| CurrentOutput
| NotebookOutput
| FileOutput (filename title : string).

(** The [if output == ...] cascade of [show]. *)
Definition output_target (output : string) (want_heatmap want_dendrogram : bool)
    : OutputTarget :=
  if String.eqb output "notebook" then NotebookOutput
  else if String.eqb output "html" then
    if want_heatmap && want_dendrogram then
      FileOutput "dendroheat.html" "Heatmap with Dendrogram"
    else if want_heatmap then FileOutput "heatmap.html" "Heatmap"
    else CurrentOutput
  else CurrentOutput.

Section Methods.

(** The collaborators: the two pandas readers ([file], [index_col]), the
    clustering call, and Bokeh's [show] of an object on a target ([None]: it
    was shown); each may raise. *)
Variable read_excel : string -> Z -> Exn + DataFrame.
Variable read_csv : string -> Z -> Exn + DataFrame.
Variable dendrogram : DataFrame -> Exn + Dendro.
Variable bokeh_show : OutputTarget -> HeatmapField -> option Exn.

(** The two [type] branches of [addData]; [df] is [None] while the local
    variable is unbound. *)
Definition addData_raw (df : option DataFrame) (s : DendroHeat) : outcome :=
  match df with
  | None => Raises UnboundLocalError s
  | Some t => Returns (set_heatmap (HTable t) s)
  end.

Definition addData_linkage (df : option DataFrame) (s : DendroHeat) : outcome :=
  match df with
  | None => Raises UnboundLocalError s
  | Some t =>
      let s1 :=
        {| heatmap := heatmap s; linkage := LTable t; icoord := icoord s;
           dcoord := dcoord s; data := data s; source := source s |} in
      match dendrogram t with
      | inl e => Raises e s1
      | inr dendro =>
          let s2 := set_dcoord (CList (dn_dcoord dendro))
                      (set_icoord (CList (dn_icoord dendro)) s1) in
          match heatmap s2 with
          | HTable tbl =>
              match iloc tbl (dn_ivl dendro) with
              | Some tbl' => Returns (set_heatmap (HTable tbl') s2)
              | None => Raises (iloc_error (dn_ivl dendro)) s2
              end
          | _ => Raises AttributeError s2
          end
      end
  end.

(** The local variable [df] after the two [endswith] tests: [None] while it is
    unbound. *)
Definition read_table (file : string) (index_col : Z) : Exn + option DataFrame :=
  if endswith file ".xlsx" then
    match read_excel file index_col with
    | inl e => inl e
    | inr t => inr (Some t)
    end
  else if endswith file ".csv" then
    match read_csv file index_col with
    | inl e => inl e
    | inr t => inr (Some t)
    end
  else inr None.

Definition addData (file : string) (index_col : Z) (type : string)
    (s : DendroHeat) : outcome :=
  if String.eqb file "" then Raises FileNotFoundError s
  else
    match read_table file index_col with
    | inl e => Raises e s
    | inr df =>
        if String.eqb type "" then Raises AssertionError s
        else
          and_then
            (if String.eqb type "raw" then addData_raw df s else Returns s)
            (fun s' =>
               if String.eqb type "linkage" then addData_linkage df s'
               else Returns s')
    end.

(** [_createHeatmap]: the cell lists, then the figure that takes the place
    of the table in [self.heatmap]. *)
Definition _createHeatmap (tool : bool) (s : DendroHeat) : outcome :=
  match heatmap s with
  | HNone => Raises AssertionError s
  | HStr _ | HFigure _ => Raises AttributeError s
  | HTable df =>
      match build df with
      | inl e => Raises e s
      | inr d =>
          Returns
            {| heatmap :=
                 HFigure {| x_range := columns df;
                            y_range := (0, nrows df);
                            hover := tool;
                            rect_source := d;
                            lines := [] |};
               linkage := linkage s; icoord := icoord s; dcoord := dcoord s;
               data := Some d; source := Some d |}
      end
  end.

(** [pd.DataFrame(x)]: rows shorter than the longest one are filled with
    [NaN]; a string is refused. *)
Definition pad_row (w : nat) (r : list Q) : list fnum :=
  map Fin r ++ repeat NaN (w - length r).

Definition frame_of_lists (l : list (list Q)) : list (list fnum) :=
  map (pad_row (list_max (map (@length Q) l))) l.

Definition pd_DataFrame (c : CoordField) : option (list (list fnum)) :=
  match c with
  | CStr _ => None
  | CList l => Some (frame_of_lists l)
  | CFrame f => Some f
  end.

(** [frame.max().max()] *)
Definition frame_max (f : list (list fnum)) : fnum := nanmax (concat f).

(** [frame * c] *)
Definition frame_scale (f : list (list fnum)) (c : fnum) : list (list fnum) :=
  map (map (fun x => fmul x c)) f.

(** The loop [for i, d in zip(ycoord, xcoord)]: each pass negates [d] and
    draws one line on [self.heatmap]. *)
Fixpoint draw_lines (todo : list (list fnum * list fnum)) (s : DendroHeat)
    : outcome :=
  match todo with
  | [] => Returns s
  | (i, d) :: rest =>
      match heatmap s with
      | HFigure f =>
          draw_lines rest
            (set_heatmap
               (HFigure {| x_range := x_range f; y_range := y_range f;
                           hover := hover f; rect_source := rect_source f;
                           lines := lines f ++ [(map fneg d, i)] |}) s)
      | _ => Raises AttributeError s
      end
  end.

Definition _createDendrogram (s : DendroHeat) : outcome :=
  match linkage s with
  | LNone => Raises AssertionError s
  | _ =>
      match pd_DataFrame (icoord s) with
      | None => Raises ValueError s
      | Some fi =>
          let s1 := set_icoord (CFrame fi) s in
          match pd_DataFrame (dcoord s1) with
          | None => Raises ValueError s1
          | Some fd =>
              let s2 := set_dcoord (CFrame fd) s1 in
              match data s2 with
              | None => Raises AttributeError s2
              | Some d =>
                  match pymax (ys d) with
                  | None => Raises ValueError s2
                  | Some my =>
                      let fi' :=
                        frame_scale fi (fdiv (Fin my) (frame_max fi)) in
                      let s3 := set_icoord (CFrame fi') s2 in
                      match pymax (xs d) with
                      | None => Raises ValueError s3
                      | Some mx =>
                          let fd' :=
                            frame_scale fd (fdiv (Fin mx) (frame_max fd)) in
                          let s4 := set_dcoord (CFrame fd') s3 in
                          draw_lines (combine fi' fd') s4
                      end
                  end
              end
          end
      end
  end.

(** [show]: the figures asked for are created in turn, the output is chosen,
    and Bokeh is asked to show whatever [self.heatmap] holds by then. *)
Definition show (output : string) (want_heatmap want_dendrogram : bool)
    (s : DendroHeat) : outcome :=
  and_then (if want_heatmap then _createHeatmap true s else Returns s)
    (fun s1 =>
       and_then (if want_dendrogram then _createDendrogram s1 else Returns s1)
         (fun s2 =>
            match bokeh_show
                    (output_target output want_heatmap want_dendrogram)
                    (heatmap s2) with
            | Some e => Raises e s2
            | None => Returns s2
            end)).

(** [main]: the raw table is added, then the linkage matrix when one is named,
    and [show()] is called with its defaults. *)
Definition main (raw linkage_file : string) : outcome :=
  and_then (addData raw 0 "raw" __init__)
    (fun dh =>
       and_then
         (if String.eqb linkage_file "" then Returns dh
          else addData linkage_file 0 "linkage" dh)
         (show "html" true true)).

End Methods.

(** ** The cell lists in closed form *)

(** Row [i] of a flat list laid out in rows of [c] cells. *)
Definition grid_row {A} (c i : nat) (l : list A) : list A :=
  firstn c (skipn (i * c) l).

(** What the loop of [_createHeatmap] leaves in [self.data] when every label
    lookup finds one row. *)
Definition layout (df : DataFrame) : Data :=
  {| name := flat_map (fun m => repeat m (ncols df)) (index df);
     attribute := flat_map (fun _ => columns df) (index df);
     colors := flat_map (fun _ => crange ++ crange) (index df);
     xs := flat_map (fun _ => arange_half (ncols df)) (index df);
     ys := flat_map (fun i => repeat (inject_Z (Z.of_nat i) + half)%Q (ncols df))
             (seq 0 (nrows df));
     value := concat (values df);
     alpha := concat (values (normalize df)) |}.

(** A leaf order of a table with [n] rows: every row position from [0] to
    [n-1], once. *)
Definition leaf_order (n : nat) (ks : list Z) : Prop :=
  Permutation ks (map Z.of_nat (seq 0 n)).


Definition constant_column (j : nat) (df : DataFrame) : Prop :=
  forall a b, In a (column j df) -> In b (column j df) -> (a == b)%Q.

(** ** Sample inputs *)

(** The table of the documentation example: rows A and B, columns c1, c2. *)
Definition table_AB : DataFrame :=
  {| index := ["A"; "B"]%string;
     columns := ["c1"; "c2"]%string;
     values := [[0; 10]; [5; 20]]%Q |}.

(** Two rows carrying the same label. *)
Definition table_AA : DataFrame :=
  {| index := ["A"; "A"]%string;
     columns := ["c1"]%string;
     values := [[0]; [5]]%Q |}.

(** One cell. *)
Definition table_one : DataFrame :=
  {| index := ["A"]%string; columns := ["c1"]%string; values := [[5]]%Q |}.

(** The first column holds the value 1 in both rows. *)
Definition table_const : DataFrame :=
  {| index := ["A"; "B"]%string;
     columns := ["c1"; "c2"]%string;
     values := [[1; 10]; [1; 20]]%Q |}.

(** Two rows, three columns. *)
Definition table_23 : DataFrame :=
  {| index := ["A"; "B"]%string;
     columns := ["c1"; "c2"; "c3"]%string;
     values := [[0; 10; 7]; [5; 20; 9]]%Q |}.

(** A one-merge linkage matrix, and the instance after both files of the
    documentation example have been added: the tree of two leaves joined at
    height 1, as scipy lays it out. *)
Definition linkage_AB : DataFrame :=
  {| index := ["0"]%string;
     columns := ["0"; "1"; "2"; "3"]%string;
     values := [[0; 1; 1; 2]]%Q |}.

Definition state_AB : DendroHeat :=
  {| heatmap := HTable table_AB; linkage := LTable linkage_AB;
     icoord := CList [[5; 5; 15; 15]]%Q; dcoord := CList [[0; 1; 1; 0]]%Q;
     data := None; source := None |}.


(** Two identical observations: they merge at height 0. *)
Definition table_twins : DataFrame :=
  {| index := ["A"; "B"]%string;
     columns := ["c1"; "c2"]%string;
     values := [[3; 4]; [3; 4]]%Q |}.

Definition state_twins : DendroHeat :=
  {| heatmap := HTable table_twins;
     linkage := LTable {| index := ["0"]%string;
                          columns := ["0"; "1"; "2"; "3"]%string;
                          values := [[0; 1; 0; 2]]%Q |};
     icoord := CList [[5; 5; 15; 15]]%Q; dcoord := CList [[0; 0; 0; 0]]%Q;
     data := None; source := None |}.

(** The lines drawn for the rescaled position rows [fi] and depth rows
    [fd]. *)
Definition segments (fi fd : list (list fnum)) : list (list fnum * list fnum) :=
  map (fun p => (map fneg (snd p), fst p)) (combine fi fd).

Definition add_lines (ls : list (list fnum * list fnum)) (f : Figure) : Figure :=
  {| x_range := x_range f; y_range := y_range f; hover := hover f;
     rect_source := rect_source f; lines := lines f ++ ls |}.

(** Tables without rows, and without columns. *)
Definition table_norows : DataFrame :=
  {| index := []; columns := ["c1"; "c2"]%string; values := [] |}.

Definition table_nocols : DataFrame :=
  {| index := ["A"]%string; columns := []; values := [[]] |}.

(** Collaborators for the examples: a reader that finds the linkage matrix
    under every name, and a clustering call that answers with a fixed leaf
    order for the tree of two leaves. *)
Definition read_linkage_AB (file : string) (index_col : Z) : Exn + DataFrame :=
  inr linkage_AB.

Definition dendrogram_with (ivl : list Z) (lk : DataFrame) : Exn + Dendro :=
  inr {| dn_icoord := [[5; 5; 15; 15]]%Q;
         dn_dcoord := [[0; 1; 1; 0]]%Q;
         dn_ivl := ivl |}.

(** A stand-in for Bokeh's [show]: it refuses what is no figure, and a figure
    with a line coordinate that is not a number. *)
Definition is_number (x : fnum) : bool :=
  match x with
  | Fin _ => true
  | _ => false
  end.

Definition show_numbers (target : OutputTarget) (h : HeatmapField) : option Exn :=
  match h with
  | HFigure f =>
      if forallb (fun ln => forallb is_number (fst ln) && forallb is_number (snd ln))
                 (lines f)
      then None else Some ValueError
  | _ => Some ValueError
  end.

(** A reader that knows two files. *)
Definition read_files (file : string) (index_col : Z) : Exn + DataFrame :=
  if String.eqb file "raw.csv" then inr table_AB
  else if String.eqb file "linkage.csv" then inr linkage_AB
  else inl (ReadError "no such file").

(** The instance once the raw table of the documentation example is in. *)
Definition state_raw_AB : DendroHeat := set_heatmap (HTable table_AB) __init__.

(** The positions [DataFrame.iloc] accepts on [n] rows, and the row a position
    stands for: a negative one counts from the end. *)
Definition iloc_accepts (n : nat) (k : Z) : Prop :=
  (- Z.of_nat n <= k < Z.of_nat n)%Z.

Definition from_start (n : nat) (k : Z) : Z :=
  if (k <? 0)%Z then (Z.of_nat n + k)%Z else k.

(** One row of ten columns. *)
Definition table_ten : DataFrame :=
  {| index := ["A"]%string;
     columns := ["c0"; "c1"; "c2"; "c3"; "c4"; "c5"; "c6"; "c7"; "c8"; "c9"]%string;
     values := [[0; 1; 2; 3; 4; 5; 6; 7; 8; 9]]%Q |}.


(** A frame entry that is no number. *)
Definition not_finite (x : fnum) : Prop :=
  match x with
  | Fin _ => False
  | _ => True
  end.

(** The instance of the twins once its heatmap is made. *)
Definition state_twins_drawn : DendroHeat :=
  final_state (_createHeatmap true state_twins).

Section ListFacts.

Context {A B : Type}.

Lemma flat_map_combine_snd (f : B -> list A) (l : list B) :
  forall k, flat_map (fun p => f (snd p)) (combine (seq k (length l)) l)
            = flat_map f l.
Proof.
  induction l as [|b l IH]; intros k; simpl; [reflexivity|].
  now rewrite IH.
Qed.

Lemma flat_map_combine_fst (f : nat -> list A) (l : list B) :
  forall k, flat_map (fun p => f (fst p)) (combine (seq k (length l)) l)
            = flat_map f (seq k (length l)).
Proof.
  induction l as [|b l IH]; intros k; simpl; [reflexivity|].
  now rewrite IH.
Qed.

Lemma flat_map_nth_seq (d : list A) (l : list (list A)) :
  flat_map (fun i => nth i l d) (seq 0 (length l)) = concat l.
Proof.
  induction l as [|r l IH]; simpl; [reflexivity|].
  rewrite <- seq_shift, flat_map_concat_map, map_map.
  rewrite <- flat_map_concat_map, IH. reflexivity.
Qed.

Lemma map_nth_seq (d : A) (l : list A) :
  map (fun i => nth i l d) (seq 0 (length l)) = l.
Proof.
  induction l as [|a l IH]; simpl; [reflexivity|].
  rewrite <- seq_shift, map_map. simpl. now rewrite IH.
Qed.

Lemma grid_row_concat (c : nat) (d : list A) (rows : list (list A)) :
  Forall (fun r => length r = c) rows ->
  forall i, i < length rows -> grid_row c i (concat rows) = nth i rows d.
Proof.
  unfold grid_row. induction 1 as [|r rows Hr _ IH]; intros i Hi; simpl in *.
  - lia.
  - destruct i as [|i]; simpl.
    + rewrite <- Hr, firstn_app, Nat.sub_diag, firstn_all. simpl.
      now rewrite app_nil_r.
    + rewrite skipn_app, skipn_all2 by lia.
      replace (c + i * c - length r) with (i * c) by lia.
      apply IH. lia.
Qed.

End ListFacts.

(** ** Label lookup *)

Lemma rows_labelled_absent {A} (m : string) (idx : list string) :
  ~ In m idx ->
  forall vals : list (list A),
    filter (fun p => String.eqb (fst p) m) (combine idx vals) = [].
Proof.
  induction idx as [|a idx IH]; intros Hm vals; simpl; [reflexivity|].
  destruct vals as [|v vals]; simpl; [reflexivity|].
  destruct (String.eqb_spec a m) as [->|_].
  - exfalso. apply Hm. now left.
  - apply IH. intros H. apply Hm. now right.
Qed.

Lemma rows_labelled_unique {A} (idx : list string) :
  NoDup idx ->
  forall (vals : list (list A)) i,
    length vals = length idx -> i < length idx ->
    map snd (filter (fun p => String.eqb (fst p) (nth i idx EmptyString))
                    (combine idx vals))
    = [nth i vals []].
Proof.
  induction 1 as [|a idx Ha Hnd IH]; intros vals i Hlen Hi; simpl in *; [lia|].
  destruct vals as [|v vals]; simpl in *; [lia|].
  destruct i as [|i].
  - rewrite String.eqb_refl. simpl.
    now rewrite rows_labelled_absent.
  - destruct (String.eqb_spec a (nth i idx EmptyString)) as [E|_].
    + exfalso. apply Ha. rewrite E. apply nth_In. lia.
    + apply IH; lia.
Qed.

Lemma loc_unique {A} (df : Frame A) (i : nat) :
  NoDup (index df) -> length (values df) = nrows df -> i < nrows df ->
  loc df (nth i (index df) EmptyString) = LocSeries (nth i (values df) []).
Proof.
  intros Hnd Hlen Hi. unfold loc, rows_labelled.
  now rewrite rows_labelled_unique.
Qed.

(** ** The loop of [_createHeatmap] *)

Lemma heatmap_loop_series (df : DataFrame) (ndf : Frame fnum)
    (vrow : nat -> list Q) (arow : nat -> list fnum) :
  forall (todo : list (nat * string)) (acc : Data),
    Forall (fun p => loc df (snd p) = LocSeries (vrow (fst p)) /\
                     loc ndf (snd p) = LocSeries (arow (fst p))) todo ->
    heatmap_loop df ndf todo acc
    = inr {| name := name acc ++ flat_map (fun p => repeat (snd p) (ncols df)) todo;
             attribute := attribute acc ++ flat_map (fun _ => columns df) todo;
             colors := colors acc ++ flat_map (fun _ => crange ++ crange) todo;
             xs := xs acc ++ flat_map (fun _ => arange_half (ncols df)) todo;
             ys := ys acc ++
                   flat_map (fun p => repeat (inject_Z (Z.of_nat (fst p)) + half)%Q
                                             (ncols df)) todo;
             value := value acc ++ flat_map (fun p => vrow (fst p)) todo;
             alpha := alpha acc ++ flat_map (fun p => arow (fst p)) todo |}.
Proof.
  induction todo as [|[i m] todo IH]; intros acc Hall.
  - simpl. rewrite !app_nil_r. now destruct acc.
  - inversion Hall as [|p l [Hv Ha] Hrest]; subst. simpl in Hv, Ha.
    cbn [heatmap_loop]. rewrite Hv, Ha, (IH _ Hrest).
    cbn [name attribute colors xs ys value alpha flat_map fst snd].
    now rewrite <- !app_assoc.
Qed.

Lemma enumerate_lookups (df : DataFrame) :
  rectangular df -> NoDup (index df) ->
  Forall (fun p => loc df (snd p) = LocSeries (nth (fst p) (values df) []) /\
                   loc (normalize df) (snd p)
                   = LocSeries (nth (fst p) (values (normalize df)) []))
         (enumerate (index df)).
Proof.
  intros [Hlen _] Hnd. apply Forall_forall. intros [i m] Hin.
  unfold enumerate in Hin.
  assert (Hi : i < nrows df /\ m = nth i (index df) EmptyString).
  { apply (In_nth _ _ (0, EmptyString)) in Hin.
    destruct Hin as (k & Hk & Hnth).
    rewrite length_combine, length_seq, Nat.min_id in Hk.
    rewrite combine_nth in Hnth by apply length_seq.
    rewrite seq_nth in Hnth by exact Hk. simpl in Hnth.
    inversion Hnth; subst. split; [exact Hk | reflexivity]. }
  destruct Hi as [Hi ->]. simpl. split.
  - now apply loc_unique.
  - apply (@loc_unique fnum (normalize df) i); simpl; auto.
    now rewrite length_map.
Qed.

Theorem build_layout (df : DataFrame) :
  rectangular df -> NoDup (index df) -> build df = inr (layout df).
Proof.
  intros Hrect Hnd. unfold build.
  rewrite (@heatmap_loop_series df (normalize df)
             (fun i => nth i (values df) [])
             (fun i => nth i (values (normalize df)) []))
    by (apply enumerate_lookups; assumption).
  unfold layout, enumerate, empty_data, nrows. cbn [name attribute colors xs ys value alpha app].
  f_equal. f_equal.
  - apply (flat_map_combine_snd (fun m => repeat m (ncols df))).
  - apply (flat_map_combine_snd (fun _ => columns df)).
  - apply (flat_map_combine_snd (fun _ => crange ++ crange)).
  - apply (flat_map_combine_snd (fun _ => arange_half (ncols df))).
  - apply (flat_map_combine_fst
             (fun i => repeat (inject_Z (Z.of_nat i) + half)%Q (ncols df))).
  - rewrite (flat_map_combine_fst (fun i => nth i (values df) [])).
    destruct Hrect as [Hlen _]. unfold nrows in Hlen. rewrite <- Hlen.
    apply flat_map_nth_seq.
  - rewrite (flat_map_combine_fst (fun i => nth i (values (normalize df)) [])).
    destruct Hrect as [Hlen _]. unfold nrows in Hlen.
    replace (length (index df)) with (length (values (normalize df)))
      by (simpl; now rewrite length_map).
    apply flat_map_nth_seq.
Qed.

(** ** Reordering by the leaf order *)

Lemma iloc_positions_in_range (n : nat) (ks : list Z) :
  Forall (fun k => (0 <= k < Z.of_nat n)%Z) ks ->
  iloc_positions n ks = Some (map Z.to_nat ks).
Proof.
  induction 1 as [|k ks Hk _ IH]; simpl; [reflexivity|].
  rewrite IH. unfold iloc_position.
  replace ((0 <=? k)%Z && (k <? Z.of_nat n)%Z) with true; [reflexivity|].
  symmetry. apply andb_true_iff. split; [apply Z.leb_le | apply Z.ltb_lt]; lia.
Qed.

Lemma leaf_order_in_range (n : nat) (ks : list Z) :
  leaf_order n ks -> Forall (fun k => (0 <= k < Z.of_nat n)%Z) ks.
Proof.
  intros Hp. apply Forall_forall. intros k Hk.
  apply (Permutation_in _ Hp) in Hk. apply in_map_iff in Hk.
  destruct Hk as (i & <- & Hi). apply in_seq in Hi. lia.
Qed.

Lemma leaf_order_positions (n : nat) (ks : list Z) :
  leaf_order n ks -> Permutation (map Z.to_nat ks) (seq 0 n).
Proof.
  intros Hp. apply (Permutation_map Z.to_nat) in Hp.
  rewrite map_map in Hp.
  rewrite (map_ext _ (fun i => i)) in Hp by (intros; apply Nat2Z.id).
  now rewrite map_id in Hp.
Qed.

Lemma take_rows_rectangular {A} (df : Frame A) (ps : list nat) :
  rectangular df -> Forall (fun p => p < nrows df) ps ->
  rectangular (take_rows df ps).
Proof.
  intros [Hlen Hrows] Hps. split.
  - unfold nrows. simpl. now rewrite !length_map.
  - simpl. apply Forall_map. revert Hps. apply Forall_impl. intros p Hp.
    rewrite Forall_forall in Hrows. apply Hrows, nth_In. lia.
Qed.

Lemma take_rows_index_NoDup {A} (df : Frame A) (ps : list nat) :
  NoDup (index df) -> Permutation ps (seq 0 (nrows df)) ->
  NoDup (index (take_rows df ps)).
Proof.
  intros Hnd Hp. simpl.
  apply (Permutation_map (fun p => nth p (index df) EmptyString)) in Hp.
  unfold nrows in Hp. rewrite map_nth_seq in Hp.
  apply Permutation_sym in Hp. exact (Permutation_NoDup Hp Hnd).
Qed.

Lemma nth_map_default {A B} (f : A -> B) (l : list A) (i : nat) (d : B) (a : A) :
  i < length l -> nth i (map f l) d = f (nth i l a).
Proof.
  intros Hi. rewrite (nth_indep _ d (f a)) by now rewrite length_map.
  apply map_nth.
Qed.

Lemma layout_value_row (df : DataFrame) (i : nat) :
  rectangular df -> i < nrows df ->
  grid_row (ncols df) i (value (layout df)) = nth i (values df) [].
Proof.
  intros [Hlen Hrows] Hi. simpl.
  apply grid_row_concat; [exact Hrows | lia].
Qed.

Lemma layout_name_row (df : DataFrame) (i : nat) :
  i < nrows df ->
  grid_row (ncols df) i (name (layout df))
  = repeat (nth i (index df) EmptyString) (ncols df).
Proof.
  intros Hi. simpl. rewrite flat_map_concat_map.
  rewrite (grid_row_concat (c := ncols df) []).
  - now rewrite (nth_map_default _ _ _ EmptyString).
  - apply Forall_map, Forall_forall. intros m _. apply repeat_length.
  - now rewrite length_map.
Qed.

Lemma layout_attribute_row (df : DataFrame) (i : nat) :
  i < nrows df ->
  grid_row (ncols df) i (attribute (layout df)) = columns df.
Proof.
  intros Hi. simpl. rewrite flat_map_concat_map.
  rewrite (grid_row_concat (c := ncols df) []).
  - now rewrite (nth_map_default _ _ _ EmptyString).
  - apply Forall_map, Forall_forall. intros m _. reflexivity.
  - now rewrite length_map.
Qed.

(** ** Reordering followed by the cell lists *)

(** X27: for every rectangular table whose row labels are pairwise distinct and
    every leaf order, reordering the table and building the cell lists
    succeeds, and grid row [i] carries the values and the label of the
    original row [leafOrder[i]]: label and values move together. *)
Theorem reorder_build_rows (df : DataFrame) (ks : list Z) :
  rectangular df -> NoDup (index df) -> leaf_order (nrows df) ks ->
  exists df' d,
    iloc df ks = Some df' /\ build df' = inr d /\
    forall i, i < nrows df ->
      let p := Z.to_nat (nth i ks 0%Z) in
      nth i (index df') EmptyString = nth p (index df) EmptyString /\
      nth i (values df') [] = nth p (values df) [] /\
      grid_row (ncols df) i (value d) = nth p (values df) [] /\
      grid_row (ncols df) i (name d)
      = repeat (nth p (index df) EmptyString) (ncols df) /\
      grid_row (ncols df) i (attribute d) = columns df.
Proof.
  intros Hrect Hnd Hlo.
  pose proof (leaf_order_in_range Hlo) as Hrange.
  pose proof (leaf_order_positions Hlo) as Hperm.
  set (ps := map Z.to_nat ks) in *.
  assert (Hps : Forall (fun p => p < nrows df) ps).
  { apply Forall_forall. intros p Hp.
    apply (Permutation_in _ Hperm), in_seq in Hp. lia. }
  assert (Hlen : length ps = nrows df).
  { rewrite (Permutation_length Hperm). apply length_seq. }
  pose proof (take_rows_rectangular Hrect Hps) as Hrect'.
  pose proof (take_rows_index_NoDup df Hnd Hperm) as Hnd'.
  exists (take_rows df ps), (layout (take_rows df ps)).
  split; [|split].
  - unfold iloc. now rewrite iloc_positions_in_range by exact Hrange.
  - now apply build_layout.
  - intros i Hi p.
    assert (Hp : nth i ps 0 = p).
    { unfold ps, p. now rewrite (nth_map_default _ _ _ 0%Z) by (unfold ps in Hlen; rewrite length_map in Hlen; lia). }
    assert (Hi' : i < nrows (take_rows df ps)).
    { unfold nrows. simpl. rewrite length_map. lia. }
    assert (Hidx : nth i (index (take_rows df ps)) EmptyString
                   = nth p (index df) EmptyString).
    { simpl. rewrite (nth_map_default _ _ _ 0) by lia. now rewrite Hp. }
    assert (Hval : nth i (values (take_rows df ps)) []
                   = nth p (values df) []).
    { simpl. rewrite (nth_map_default _ _ _ 0) by lia. now rewrite Hp. }
    change (ncols df) with (ncols (take_rows df ps)).
    rewrite layout_value_row, layout_name_row, layout_attribute_row, Hidx, Hval
      by assumption.
    repeat split.
Qed.

Lemma reorder_build_rows_witness :
  exists df' d,
    iloc table_AB [1; 0]%Z = Some df' /\ build df' = inr d /\
    forall i, i < nrows table_AB ->
      let p := Z.to_nat (nth i [1; 0]%Z 0%Z) in
      nth i (index df') EmptyString = nth p (index table_AB) EmptyString /\
      nth i (values df') [] = nth p (values table_AB) [] /\
      grid_row (ncols table_AB) i (value d) = nth p (values table_AB) [] /\
      grid_row (ncols table_AB) i (name d)
      = repeat (nth p (index table_AB) EmptyString) (ncols table_AB) /\
      grid_row (ncols table_AB) i (attribute d) = columns table_AB.
Proof.
  apply (@reorder_build_rows table_AB [1; 0]%Z).
  - split; [reflexivity | repeat constructor].
  - repeat constructor; simpl; intuition discriminate.
  - unfold leaf_order. simpl. apply perm_swap.
Defined.

(** C1: with two rows labelled alike, the identity leaf order is accepted and
    the loop of [_createHeatmap] then stops with an [AttributeError] at the
    first label lookup ([df.loc[m]] gives both rows): there is no cell list,
    where the claim asks for the rows of the table in leaf order. *)
Lemma reorder_build_duplicate_labels :
  rectangular table_AA /\
  leaf_order (nrows table_AA) [0; 1]%Z /\
  iloc table_AA [0; 1]%Z = Some table_AA /\
  build table_AA = inl AttributeError.
Proof.
  split; [split; [reflexivity | repeat constructor]|].
  split; [apply Permutation_refl|].
  split; reflexivity.
Qed.

(** ** Normalisation *)

Lemma fold_min_le_init (t : list Q) :
  forall x, (fold_left Qmin t x <= x)%Q.
Proof.
  induction t as [|y t IH]; intros x; simpl.
  - apply Qle_refl.
  - eapply Qle_trans; [apply IH | apply Q.le_min_l].
Qed.

Lemma fold_min_le (t : list Q) :
  forall x a, In a (x :: t) -> (fold_left Qmin t x <= a)%Q.
Proof.
  induction t as [|y t IH]; intros x a [<-|Hin]; simpl.
  - apply Qle_refl.
  - destruct Hin.
  - eapply Qle_trans; [apply fold_min_le_init | apply Q.le_min_l].
  - destruct Hin as [<-|Hin].
    + eapply Qle_trans; [apply fold_min_le_init | apply Q.le_min_r].
    + apply IH. now right.
Qed.

Lemma fold_max_ge_init (t : list Q) :
  forall x, (x <= fold_left Qmax t x)%Q.
Proof.
  induction t as [|y t IH]; intros x; simpl.
  - apply Qle_refl.
  - eapply Qle_trans; [apply Q.le_max_l | apply IH].
Qed.

Lemma fold_max_ge (t : list Q) :
  forall x a, In a (x :: t) -> (a <= fold_left Qmax t x)%Q.
Proof.
  induction t as [|y t IH]; intros x a [<-|Hin]; simpl.
  - apply Qle_refl.
  - destruct Hin.
  - eapply Qle_trans; [apply Q.le_max_l | apply fold_max_ge_init].
  - destruct Hin as [<-|Hin].
    + eapply Qle_trans; [apply Q.le_max_r | apply fold_max_ge_init].
    + apply IH. now right.
Qed.

Lemma fold_min_glb (t : list Q) :
  forall x c, (forall a, In a (x :: t) -> (c <= a)%Q) ->
              (c <= fold_left Qmin t x)%Q.
Proof.
  induction t as [|y t IH]; intros x c Hc; simpl.
  - apply Hc. now left.
  - apply IH. intros a [<-|Hin].
    + apply Q.min_glb; apply Hc; simpl; auto.
    + apply Hc. now right; right.
Qed.

Lemma fold_max_lub (t : list Q) :
  forall x c, (forall a, In a (x :: t) -> (a <= c)%Q) ->
              (fold_left Qmax t x <= c)%Q.
Proof.
  induction t as [|y t IH]; intros x c Hc; simpl.
  - apply Hc. now left.
  - apply IH. intros a [<-|Hin].
    + apply Q.max_lub; apply Hc; simpl; auto.
    + apply Hc. now right; right.
Qed.

(** The minimum and the maximum of a column with at least one value. *)
Lemma series_bounds (l : list Q) (v : Q) :
  In v l ->
  exists mn mx, series_min l = Fin mn /\ series_max l = Fin mx /\
    forall a, In a l -> (mn <= a <= mx)%Q.
Proof.
  destruct l as [|x t]; [intros []|]. intros _.
  exists (fold_left Qmin t x), (fold_left Qmax t x).
  repeat split; [now apply fold_min_le | now apply fold_max_ge].
Qed.

(** On a column of equal values the minimum and the maximum coincide. *)
Lemma series_constant (l : list Q) (mn mx : Q) :
  (forall a b, In a l -> In b l -> (a == b)%Q) ->
  series_min l = Fin mn -> series_max l = Fin mx -> (mn == mx)%Q.
Proof.
  destruct l as [|x t]; [discriminate|]. intros Heq Emn Emx.
  injection Emn as <-. injection Emx as <-.
  apply Qle_antisym.
  - eapply Qle_trans; [apply fold_min_le_init | apply fold_max_ge_init].
  - eapply Qle_trans with x.
    + apply fold_max_lub. intros a Ha.
      rewrite (Heq a x Ha (or_introl eq_refl)). apply Qle_refl.
    + apply fold_min_glb. intros a Ha.
      rewrite (Heq a x Ha (or_introl eq_refl)). apply Qle_refl.
Qed.


Lemma normalized_nan (mn v mx : Q) :
  (mn <= v)%Q -> (v <= mx)%Q -> (mn == mx)%Q ->
  fdiv (fsub (Fin v) (Fin mn)) (fsub (Fin mx) (Fin mn)) = NaN.
Proof.
  intros H1 H2 H3. simpl.
  destruct (Qeq_bool (mx - mn) 0) eqn:E.
  - unfold inf_of_sign.
    destruct (Qcompare_spec (v - mn) 0) as [_|H|H]; [reflexivity | lra | lra].
  - apply Qeq_bool_neq in E. exfalso. apply E. lra.
Qed.

Lemma nth_concat_grid {A} (c : nat) (d : A) (rows : list (list A)) :
  Forall (fun r => length r = c) rows ->
  forall i j, i < length rows -> j < c ->
    nth (i * c + j) (concat rows) d = nth j (nth i rows []) d.
Proof.
  induction 1 as [|r rows Hr _ IH]; intros i j Hi Hj; simpl in *; [lia|].
  destruct i as [|i]; simpl.
  - apply app_nth1. lia.
  - rewrite app_nth2 by lia.
    replace (c + i * c + j - length r) with (i * c + j) by lia.
    apply IH; lia.
Qed.

Lemma df_min_length (df : DataFrame) : length (df_min df) = ncols df.
Proof. unfold df_min. now rewrite length_map, length_seq. Qed.

Lemma df_max_length (df : DataFrame) : length (df_max df) = ncols df.
Proof. unfold df_max. now rewrite length_map, length_seq. Qed.

Lemma normalize_row_length (df : DataFrame) (r : list Q) :
  length r = ncols df ->
  length (normalize_row (df_min df) (df_max df) r) = ncols df.
Proof.
  intros Hr. unfold normalize_row.
  rewrite length_map, !length_combine, df_min_length, df_max_length. lia.
Qed.

Lemma normalize_rectangular (df : DataFrame) :
  rectangular df -> rectangular (normalize df).
Proof.
  intros [Hlen Hrows]. split.
  - simpl. rewrite length_map. exact Hlen.
  - simpl. apply Forall_map. revert Hrows. apply Forall_impl.
    intros r Hr. now apply normalize_row_length.
Qed.

Lemma normalize_row_nth (df : DataFrame) (r : list Q) (j : nat) :
  length r = ncols df -> j < ncols df ->
  nth j (normalize_row (df_min df) (df_max df) r) NaN
  = fdiv (fsub (Fin (nth j r 0%Q)) (series_min (column j df)))
         (fsub (series_max (column j df)) (series_min (column j df))).
Proof.
  intros Hr Hj. unfold normalize_row.
  rewrite (nth_map_default _ _ _ (0%Q, (NaN, NaN)))
    by (rewrite !length_combine, df_min_length, df_max_length; lia).
  rewrite combine_nth
    by (rewrite length_combine, df_min_length, df_max_length; lia).
  rewrite combine_nth by now rewrite df_min_length, df_max_length.
  unfold df_min, df_max.
  rewrite !(nth_map_default _ _ _ 0) by now rewrite length_seq.
  now rewrite seq_nth.
Qed.

Lemma cell_in_column (df : DataFrame) (i j : nat) :
  i < length (values df) ->
  In (nth j (nth i (values df) []) 0%Q) (column j df).
Proof.
  intros Hi. unfold column.
  apply (in_map (fun r => nth j r 0%Q)), nth_In, Hi.
Qed.

(** The intensity stored for the cell in row [i], column [j]. *)
Lemma layout_alpha_cell (df : DataFrame) (i j : nat) :
  rectangular df -> i < nrows df -> j < ncols df ->
  nth (i * ncols df + j) (alpha (layout df)) NaN
  = fdiv (fsub (Fin (nth j (nth i (values df) []) 0%Q))
               (series_min (column j df)))
         (fsub (series_max (column j df)) (series_min (column j df))).
Proof.
  intros Hrect Hi Hj.
  destruct (normalize_rectangular Hrect) as [Hlen' Hrows'].
  destruct Hrect as [Hlen Hrows].
  cbn [alpha layout].
  rewrite (nth_concat_grid (c := ncols df)); try assumption.
  - cbn [values normalize].
    rewrite (nth_map_default _ _ _ []) by lia.
    apply normalize_row_nth; [|exact Hj].
    rewrite Forall_forall in Hrows. apply Hrows, nth_In. lia.
  - rewrite Hlen'. exact Hi.
Qed.

(** ** Sizes of the cell lists *)

Lemma flat_map_length_const {A B} (f : A -> list B) (c : nat) (l : list A) :
  (forall x, length (f x) = c) -> length (flat_map f l) = length l * c.
Proof.
  intros Hf. induction l as [|a l IH]; simpl; [reflexivity|].
  now rewrite length_app, Hf, IH.
Qed.

Lemma concat_length_const {A} (c : nat) (rows : list (list A)) :
  Forall (fun r => length r = c) rows ->
  length (concat rows) = length rows * c.
Proof.
  induction 1 as [|r rows Hr _ IH]; simpl; [reflexivity|].
  now rewrite length_app, Hr, IH.
Qed.

Lemma arange_half_length (n : nat) : length (arange_half n) = n.
Proof. unfold arange_half. now rewrite length_map, length_seq. Qed.

Lemma layout_lengths (df : DataFrame) :
  rectangular df ->
  length (name (layout df)) = nrows df * ncols df /\
  length (attribute (layout df)) = nrows df * ncols df /\
  length (xs (layout df)) = nrows df * ncols df /\
  length (ys (layout df)) = nrows df * ncols df /\
  length (value (layout df)) = nrows df * ncols df /\
  length (alpha (layout df)) = nrows df * ncols df.
Proof.
  intros Hrect.
  destruct (normalize_rectangular Hrect) as [Hlen' Hrows'].
  destruct Hrect as [Hlen Hrows]. unfold nrows in *. simpl.
  repeat split.
  - apply flat_map_length_const. intros m. apply repeat_length.
  - now apply flat_map_length_const.
  - apply flat_map_length_const. intros _. apply arange_half_length.
  - rewrite (flat_map_length_const _ (c := ncols df)).
    + now rewrite length_seq.
    + intros i. apply repeat_length.
  - rewrite <- Hlen. now apply concat_length_const.
  - simpl in Hlen'. rewrite <- Hlen'. now apply concat_length_const.
Qed.

(** The colour list grows by the palette twice per row, whatever the number
    of columns. *)
Lemma layout_colors_length (df : DataFrame) :
  length (colors (layout df)) = nrows df * 20.
Proof.
  simpl. now apply flat_map_length_const.
Qed.

Lemma palette_twice_nth (k : nat) :
  k < 20 ->
  nth k (crange ++ crange) EmptyString = nth (k mod 10) crange EmptyString.
Proof.
  intros Hk.
  do 20 (destruct k as [|k]; [reflexivity|]). lia.
Qed.

(** The colour stored at position [k] of the flat list. *)
Lemma layout_colors_nth (df : DataFrame) (k : nat) :
  k < nrows df * 20 ->
  nth k (colors (layout df)) EmptyString = nth (k mod 10) crange EmptyString.
Proof.
  unfold nrows. cbn [colors layout]. revert k.
  induction (index df) as [|m l IH]; intros k Hk; simpl in Hk; [lia|].
  cbn [flat_map].
  destruct (Nat.lt_ge_cases k 20) as [Hlt|Hge].
  - rewrite app_nth1 by (simpl; lia). now apply palette_twice_nth.
  - rewrite app_nth2 by (simpl; lia).
    change (length (crange ++ crange)) with 20.
    rewrite IH by lia.
    replace k with (k - 20 + 2 * 10) at 2 by lia.
    now rewrite Nat.Div0.mod_add.
Qed.

(** ** Cells and intensities *)



(** C3: a table with a repeated row label gets no cell list, and for the table
    of one cell the colour list has 20 entries and the only intensity is
    [NaN], where the claim asks for one well-formed record per cell with an
    intensity between 0 and 1. *)
Lemma build_cells_fails :
  build table_AA = inl AttributeError /\
  exists d,
    build table_one = inr d /\
    nrows table_one * ncols table_one = 1 /\
    length (colors d) = 20 /\
    alpha d = [NaN] /\
    in_unit NaN = false.
Proof.
  split; [reflexivity|].
  eexists. split; [reflexivity|]. repeat split.
Qed.

(** C2: the code gives every cell of a column that holds one value only the
    intensity [NaN], the result of [0/0]; no neutral value is substituted. *)
Theorem constant_column_intensity_nan (df : DataFrame) (i j : nat) :
  rectangular df -> NoDup (index df) ->
  i < nrows df -> j < ncols df -> constant_column j df ->
  exists d,
    build df = inr d /\
    i * ncols df + j < length (alpha d) /\
    nth (i * ncols df + j) (alpha d) (Fin 0) = NaN.
Proof.
  intros Hrect Hnd Hi Hj Hconst. exists (layout df).
  split; [now apply build_layout|].
  destruct (layout_lengths Hrect) as (_ & _ & _ & _ & _ & Hlen).
  assert (Hk : i * ncols df + j < length (alpha (layout df))) by (rewrite Hlen; nia).
  split; [exact Hk|].
  rewrite (nth_indep _ (Fin 0) NaN Hk).
  rewrite layout_alpha_cell by assumption.
  assert (Hv : In (nth j (nth i (values df) []) 0%Q) (column j df)).
  { apply cell_in_column. destruct Hrect as [Hlen' _]. lia. }
  destruct (series_bounds _ _ Hv) as (mn & mx & Emn & Emx & Hb).
  rewrite Emn, Emx.
  pose proof (Hb _ Hv) as [Hlo Hhi].
  apply normalized_nan; try assumption.
  exact (series_constant _ Hconst Emn Emx).
Qed.

Lemma constant_column_intensity_nan_witness :
  exists d,
    build table_const = inr d /\
    1 * ncols table_const + 0 < length (alpha d) /\
    nth (1 * ncols table_const + 0) (alpha d) (Fin 0) = NaN.
Proof.
  apply (@constant_column_intensity_nan table_const 1 0).
  - split; [reflexivity | repeat constructor].
  - repeat constructor; simpl; intuition discriminate.
  - unfold nrows. simpl. lia.
  - unfold ncols. simpl. lia.
  - intros a b Ha Hb. simpl in Ha, Hb.
    destruct Ha as [<-|[<-|[]]]; destruct Hb as [<-|[<-|[]]]; reflexivity.
Defined.

(** ** Colours *)

(** C4: on the table with two rows and three columns the colour list holds 40
    entries for 6 cells, and the first column is paired with the first palette
    colour in row 0 but with the fourth one in row 1. *)
Theorem column_color_varies_with_row :
  exists d,
    build table_23 = inr d /\
    length (value d) = 6 /\
    length (colors d) = 40 /\
    nth (0 * ncols table_23 + 0) (colors d) EmptyString = nth 0 crange EmptyString /\
    nth (1 * ncols table_23 + 0) (colors d) EmptyString = nth 3 crange EmptyString /\
    nth 3 crange EmptyString <> nth (0 mod 10) crange EmptyString.
Proof.
  eexists. split; [reflexivity|].
  repeat split. discriminate.
Qed.

(** X6: the colour paired with the cell of row [i] and column [j] is the palette
    entry of the cell's position in the flat list, not of [j]. *)
Lemma cell_color (df : DataFrame) (i j : nat) :
  rectangular df -> NoDup (index df) ->
  i * ncols df + j < nrows df * 20 ->
  exists d,
    build df = inr d /\
    nth (i * ncols df + j) (colors d) EmptyString
    = nth ((i * ncols df + j) mod 10) crange EmptyString.
Proof.
  intros Hrect Hnd Hk. exists (layout df).
  split; [now apply build_layout | now apply layout_colors_nth].
Qed.

(** ** Scaling by a positive factor *)

Lemma inf_of_sign_pos (f : Q) : (0 < f)%Q -> inf_of_sign f = PInf.
Proof.
  intros Hf. unfold inf_of_sign.
  destruct (Qcompare_spec f 0) as [H|H|H]; [lra | lra | reflexivity].
Qed.







(** ** The largest cell centres *)

Lemma pymax_fold_spec (t : list Q) :
  forall x,
    let m := fold_left (fun m y => if Qle_bool y m then m else y) t x in
    In m (x :: t) /\ forall a, In a (x :: t) -> (a <= m)%Q.
Proof.
  induction t as [|y t IH]; intros x; simpl.
  - split; [now left|]. intros a [Ha|[]]. rewrite Ha. apply Qle_refl.
  - destruct (Qle_bool y x) eqn:E.
    + destruct (IH x) as [Hin Hmax]. split.
      * destruct Hin as [Hin|Hin]; [now left | now right; right].
      * intros a [Ha|[Ha|Ha]].
        -- apply Hmax. now left.
        -- rewrite <- Ha. apply Qle_bool_iff in E.
           eapply Qle_trans; [exact E|]. apply Hmax. now left.
        -- apply Hmax. now right.
    + destruct (IH y) as [Hin Hmax]. split.
      * now right.
      * intros a [Ha|[Ha|Ha]].
        -- rewrite <- Ha.
           assert (Hxy : (x <= y)%Q).
           { destruct (Qlt_le_dec x y) as [H|H]; [now apply Qlt_le_weak|].
             apply Qle_bool_iff in H. congruence. }
           eapply Qle_trans; [exact Hxy|]. apply Hmax. now left.
        -- apply Hmax. now left.
        -- apply Hmax. now right.
Qed.



Lemma in_layout_ys (df : DataFrame) (q : Q) :
  In q (ys (layout df)) <->
  exists i, i < nrows df /\ 0 < ncols df /\
            q = (inject_Z (Z.of_nat i) + half)%Q.
Proof.
  cbn [ys layout]. rewrite in_flat_map. split.
  - intros (i & Hi & Hq). apply in_seq in Hi. apply repeat_spec in Hq as Hq'.
    exists i. repeat split; [lia | | exact Hq'].
    destruct (ncols df); [destruct Hq | lia].
  - intros (i & Hi & Hc & ->). exists i. split; [apply in_seq; lia|].
    destruct (ncols df); [lia | now left].
Qed.

Lemma in_layout_xs (df : DataFrame) (q : Q) :
  In q (xs (layout df)) <->
  exists j, j < ncols df /\ 0 < nrows df /\
            q = (inject_Z (Z.of_nat j) + half)%Q.
Proof.
  cbn [xs layout]. rewrite in_flat_map. unfold nrows, arange_half. split.
  - intros (m & Hm & Hq). apply in_map_iff in Hq.
    destruct Hq as (j & <- & Hj). apply in_seq in Hj.
    exists j. repeat split; [lia|].
    destruct (index df); [destruct Hm | simpl; lia].
  - intros (j & Hj & Hr & ->).
    destruct (index df) as [|m l]; [simpl in Hr; lia|].
    exists m. split; [now left|].
    apply in_map_iff. exists j. split; [reflexivity | apply in_seq; lia].
Qed.





(** ** The dendrogram lines *)

Lemma draw_lines_figure (todo : list (list fnum * list fnum)) :
  forall (s : DendroHeat) (f : Figure),
    heatmap s = HFigure f ->
    draw_lines todo s
    = Returns (set_heatmap
                 (HFigure (add_lines
                             (map (fun p => (map fneg (snd p), fst p)) todo) f))
                 s).
Proof.
  induction todo as [|[i d] todo IH]; intros s f Hf; simpl.
  - unfold add_lines. rewrite app_nil_r. destruct s, f; simpl in *.
    now rewrite Hf.
  - rewrite Hf. erewrite IH by reflexivity.
    unfold add_lines, set_heatmap. simpl. now rewrite <- app_assoc.
Qed.







(** C6: with two identical observations every raw depth is 0;
    [_createDendrogram], run on the instance [_createHeatmap] leaves, raises
    nothing: the factor of the depths is [+inf], and every depth that is
    stored and drawn is [NaN]. *)
Theorem createDendrogram_degenerate_tree :
  exists s' fig,
    frame_max (frame_of_lists [[0; 0; 0; 0]]%Q) = Fin 0 /\
    _createHeatmap true state_twins = Returns state_twins_drawn /\
    _createDendrogram state_twins_drawn = Returns s' /\
    fdiv (Fin (3 # 2)) (Fin 0) = PInf /\
    dcoord s' = CFrame [[NaN; NaN; NaN; NaN]] /\
    heatmap s' = HFigure fig /\
    map fst (lines fig) = [[NaN; NaN; NaN; NaN]].
Proof.
  do 2 eexists. repeat split.
Qed.

(** ** Leaf orders that are not permutations *)

Lemma iloc_positions_out_of_range (n : nat) (ks : list Z) :
  Exists (fun k => (k < - Z.of_nat n \/ Z.of_nat n <= k)%Z) ks ->
  iloc_positions n ks = None.
Proof.
  induction 1 as [k ks Hk | k ks _ IH]; simpl.
  - unfold iloc_position.
    replace ((0 <=? k)%Z && (k <? Z.of_nat n)%Z) with false
      by (symmetry; apply andb_false_iff;
          destruct Hk; [left; apply Z.leb_gt | right; apply Z.ltb_ge]; lia).
    replace ((- Z.of_nat n <=? k)%Z && (k <? 0)%Z) with false
      by (symmetry; apply andb_false_iff;
          destruct Hk; [left; apply Z.leb_gt | right; apply Z.ltb_ge]; lia).
    reflexivity.
  - rewrite IH. now destruct (iloc_position n k).
Qed.

Lemma iloc_error_int64 (ks : list Z) :
  Forall (fun k => (- 2 ^ 63 <= k < 2 ^ 63)%Z) ks -> iloc_error ks = IndexError.
Proof.
  intros H. unfold iloc_error.
  replace (forallb fits_machine ks) with true; [reflexivity|].
  symmetry. apply forallb_forall. rewrite Forall_forall in H.
  intros k Hk. specialize (H _ Hk). unfold fits_machine.
  apply andb_true_iff. split; [apply Z.leb_le | apply Z.ltb_lt]; lia.
Qed.

(** C7 (as amended): when the positions of the leaf order are 64-bit integers
    and one of them lies below [-rows] or from [rows] on, [addData] with
    [type='linkage'] fails with [IndexError] and the stored table is the one
    it was. *)
Theorem addData_linkage_out_of_range
    (read_excel read_csv : string -> Z -> Exn + DataFrame)
    (dendrogram : DataFrame -> Exn + Dendro)
    (file : string) (index_col : Z) (s : DendroHeat)
    (tbl lk : DataFrame) (dendro : Dendro) :
  file <> EmptyString ->
  read_table read_excel read_csv file index_col = inr (Some lk) ->
  dendrogram lk = inr dendro ->
  heatmap s = HTable tbl ->
  Forall (fun k => (- 2 ^ 63 <= k < 2 ^ 63)%Z) (dn_ivl dendro) ->
  Exists (fun k => (k < - Z.of_nat (nrows tbl) \/ Z.of_nat (nrows tbl) <= k)%Z)
         (dn_ivl dendro) ->
  exists s',
    addData read_excel read_csv dendrogram file index_col "linkage" s
    = Raises IndexError s' /\
    heatmap s' = HTable tbl.
Proof.
  intros Hfile Hread Hdn Hh Hfit Hbad.
  unfold addData. apply String.eqb_neq in Hfile. rewrite Hfile, Hread.
  cbn [String.eqb Ascii.eqb Bool.eqb and_then].
  unfold addData_linkage. rewrite Hdn.
  cbn [heatmap set_dcoord set_icoord]. rewrite Hh.
  unfold iloc. rewrite iloc_positions_out_of_range by exact Hbad.
  rewrite (iloc_error_int64 Hfit).
  eexists. split; reflexivity.
Qed.

Lemma addData_linkage_out_of_range_witness :
  exists s',
    addData read_linkage_AB read_linkage_AB (dendrogram_with [0; 2]%Z)
            "linkage.csv" 0 "linkage" state_raw_AB
    = Raises IndexError s' /\
    heatmap s' = HTable table_AB.
Proof.
  apply (@addData_linkage_out_of_range
           read_linkage_AB read_linkage_AB (dendrogram_with [0; 2]%Z)
           "linkage.csv" 0%Z state_raw_AB table_AB linkage_AB
           {| dn_icoord := [[5; 5; 15; 15]]%Q;
              dn_dcoord := [[0; 1; 1; 0]]%Q;
              dn_ivl := [0; 2]%Z |}).
  - discriminate.
  - reflexivity.
  - reflexivity.
  - reflexivity.
  - repeat constructor; simpl; lia.
  - apply Exists_cons_tl, Exists_cons_hd. right. unfold nrows. simpl. lia.
Defined.

Lemma not_leaf_order_repeated : ~ leaf_order 2 [0; 0]%Z.
Proof.
  unfold leaf_order. simpl. intros Hp.
  apply Permutation_sym in Hp.
  assert (Hin : In 1%Z [0; 0]%Z) by (apply (Permutation_in _ Hp); simpl; auto).
  simpl in Hin. intuition discriminate.
Qed.

Lemma not_leaf_order_short : ~ leaf_order 2 [1]%Z.
Proof.
  unfold leaf_order. intros Hp. apply Permutation_length in Hp. discriminate.
Qed.

Lemma not_leaf_order_negative : ~ leaf_order 2 [-1; 0]%Z.
Proof.
  unfold leaf_order. simpl. intros Hp.
  assert (Hin : In (-1)%Z [0; 1]%Z) by (apply (Permutation_in _ Hp); simpl; auto).
  simpl in Hin. intuition discriminate.
Qed.

(** C7 fails as stated: a leaf order that repeats a position, one that is too
    short and one with a negative position are none of them permutations of
    the row positions, and each is applied without an error: the stored
    table becomes the selected rows. *)
Lemma addData_linkage_accepts_bad_orders :
  (~ leaf_order (nrows table_AB) [0; 0]%Z /\
   exists s',
     addData read_linkage_AB read_linkage_AB (dendrogram_with [0; 0]%Z)
             "linkage.csv" 0 "linkage" state_raw_AB = Returns s' /\
     heatmap s' = HTable {| index := ["A"; "A"]%string;
                            columns := ["c1"; "c2"]%string;
                            values := [[0; 10]; [0; 10]]%Q |}) /\
  (~ leaf_order (nrows table_AB) [1]%Z /\
   exists s',
     addData read_linkage_AB read_linkage_AB (dendrogram_with [1]%Z)
             "linkage.csv" 0 "linkage" state_raw_AB = Returns s' /\
     heatmap s' = HTable {| index := ["B"]%string;
                            columns := ["c1"; "c2"]%string;
                            values := [[5; 20]]%Q |}) /\
  (~ leaf_order (nrows table_AB) [-1; 0]%Z /\
   exists s',
     addData read_linkage_AB read_linkage_AB (dendrogram_with [-1; 0]%Z)
             "linkage.csv" 0 "linkage" state_raw_AB = Returns s' /\
     heatmap s' = HTable {| index := ["B"; "A"]%string;
                            columns := ["c1"; "c2"]%string;
                            values := [[5; 20]; [0; 10]]%Q |}).
Proof.
  split; [|split].
  - split; [exact not_leaf_order_repeated|]. eexists. split; reflexivity.
  - split; [exact not_leaf_order_short|]. eexists. split; reflexivity.
  - split; [exact not_leaf_order_negative|]. eexists. split; reflexivity.
Qed.

(** ** Empty tables *)

(** C8 (as amended): the cell lists are built for every rectangular table with
    pairwise distinct row labels, without any error, also when it has no row
    or no column; without rows all the lists are empty, without columns the
    lists of names, attributes, centres, values and intensities are. *)
Theorem build_accepts_empty (df : DataFrame) :
  rectangular df -> NoDup (index df) ->
  exists d,
    build df = inr d /\
    (nrows df = 0 -> d = empty_data) /\
    (ncols df = 0 ->
     name d = [] /\ attribute d = [] /\ xs d = [] /\ ys d = [] /\
     value d = [] /\ alpha d = []).
Proof.
  intros Hrect Hnd. exists (layout df).
  split; [now apply build_layout|]. split.
  - intros Hn. unfold nrows in Hn. apply length_zero_iff_nil in Hn.
    destruct Hrect as [Hlen _]. unfold nrows in Hlen. rewrite Hn in Hlen.
    apply length_zero_iff_nil in Hlen.
    unfold layout, nrows. simpl. now rewrite Hn, Hlen.
  - intros Hc.
    destruct (layout_lengths Hrect) as (H1 & H2 & H3 & H4 & H5 & H6).
    rewrite Hc, Nat.mul_0_r in *.
    repeat split; now apply length_zero_iff_nil.
Qed.

Lemma build_accepts_empty_witness :
  exists d,
    build table_norows = inr d /\
    (nrows table_norows = 0 -> d = empty_data) /\
    (ncols table_norows = 0 ->
     name d = [] /\ attribute d = [] /\ xs d = [] /\ ys d = [] /\
     value d = [] /\ alpha d = []).
Proof.
  apply (@build_accepts_empty table_norows).
  - split; [reflexivity | constructor].
  - constructor.
Defined.

(** C8 fails as stated: tables without rows or without columns are laid out
    without an error. *)
Lemma build_empty_tables :
  nrows table_norows = 0 /\
  build table_norows = inr empty_data /\
  ncols table_nocols = 0 /\
  build table_nocols
  = inr {| name := []; attribute := []; colors := crange ++ crange;
           xs := []; ys := []; value := []; alpha := [] |}.
Proof.
  repeat split.
Qed.

(** ** What the methods keep and what they overwrite *)

Lemma draw_lines_frame (todo : list (list fnum * list fnum)) :
  forall s,
    let s' := final_state (draw_lines todo s) in
    linkage s' = linkage s /\ icoord s' = icoord s /\ dcoord s' = dcoord s /\
    data s' = data s /\ source s' = source s.
Proof.
  induction todo as [|[i d] todo IH]; intros s; simpl.
  - repeat split.
  - destruct (heatmap s); simpl; try (repeat split; fail).
    apply (IH (set_heatmap _ s)).
Qed.

(** C9 (as amended): both methods work on the fields of the instance.
    [_createHeatmap] never touches the linkage or the tree coordinates, and
    when it returns the stored table has given way to the figure of that
    table and the cell lists of that table are stored; [_createDendrogram]
    never touches the cell lists or the linkage, and when it returns the tree
    coordinates have given way to their frames rescaled by the largest cell
    centre over the largest coordinate, and the figure has the lines of these
    frames. *)
Theorem methods_frame (tool : bool) (s : DendroHeat) :
  (let s1 := final_state (_createHeatmap tool s) in
   linkage s1 = linkage s /\ icoord s1 = icoord s /\ dcoord s1 = dcoord s) /\
  (forall s1, _createHeatmap tool s = Returns s1 ->
     exists df d,
       heatmap s = HTable df /\ build df = inr d /\
       heatmap s1 = HFigure {| x_range := columns df;
                               y_range := (0, nrows df);
                               hover := tool;
                               rect_source := d;
                               lines := [] |} /\
       data s1 = Some d /\ source s1 = Some d) /\
  (let s2 := final_state (_createDendrogram s) in
   linkage s2 = linkage s /\ data s2 = data s /\ source s2 = source s) /\
  (forall s2, _createDendrogram s = Returns s2 ->
     exists fi fd d my mx,
       pd_DataFrame (icoord s) = Some fi /\
       pd_DataFrame (dcoord s) = Some fd /\
       data s = Some d /\
       pymax (ys d) = Some my /\ pymax (xs d) = Some mx /\
       icoord s2 = CFrame (frame_scale fi (fdiv (Fin my) (frame_max fi))) /\
       dcoord s2 = CFrame (frame_scale fd (fdiv (Fin mx) (frame_max fd))) /\
       forall fig, heatmap s = HFigure fig ->
         heatmap s2
         = HFigure (add_lines
                      (segments
                         (frame_scale fi (fdiv (Fin my) (frame_max fi)))
                         (frame_scale fd (fdiv (Fin mx) (frame_max fd))))
                      fig)).
Proof.
  split; [|split; [|split]].
  - unfold _createHeatmap.
    destruct (heatmap s); simpl; try (repeat split; fail).
    destruct (build df); simpl; repeat split.
  - intros s1. unfold _createHeatmap.
    destruct (heatmap s) as [| |df|]; try discriminate.
    destruct (build df) as [e|d] eqn:E; [discriminate|].
    intros [= <-]. exists df, d. repeat split. exact E.
  - unfold _createDendrogram.
    destruct (linkage s) eqn:El; simpl; try (repeat split; assumption);
      (destruct (pd_DataFrame (icoord s)); simpl; [|repeat split; assumption];
       destruct (pd_DataFrame (dcoord s)); simpl; [|repeat split; assumption];
       destruct (data s) as [d|] eqn:Ed; simpl; [|repeat split; assumption];
       destruct (pymax (ys d)); simpl; [|repeat split; assumption];
       destruct (pymax (xs d)); simpl; [|repeat split; assumption];
       match goal with
       | |- context [draw_lines ?t ?st] =>
           destruct (draw_lines_frame t st) as (H1 & _ & _ & H4 & H5);
           simpl in H1, H4, H5; rewrite H1, H4, H5
       end; repeat split; assumption).
  - intros s2. unfold _createDendrogram.
    destruct (linkage s); try discriminate;
      (destruct (pd_DataFrame (icoord s)) as [fi|]; [|discriminate];
       cbn [dcoord set_icoord];
       destruct (pd_DataFrame (dcoord s)) as [fd|]; [|discriminate];
       cbn [data set_dcoord set_icoord];
       destruct (data s) as [d|]; [|discriminate];
       destruct (pymax (ys d)) as [my|] eqn:Ey; [|discriminate];
       destruct (pymax (xs d)) as [mx|] eqn:Ex; [|discriminate];
       match goal with
       | |- context [draw_lines ?t ?st] =>
           pose proof (draw_lines_frame t st) as (_ & H2 & H3 & _);
           pose proof (fun f => @draw_lines_figure t st f) as Hfig
       end;
       intros E; rewrite E in H2, H3; simpl in H2, H3;
       exists fi, fd, d, my, mx;
       do 3 (split; [reflexivity|]);
       split; [exact Ey|]; split; [exact Ex|];
       split; [exact H2|]; split; [exact H3|];
       intros fig Hh; rewrite (Hfig fig Hh) in E;
       injection E as <-; reflexivity).
Qed.

Lemma methods_frame_witness :
  exists s1 s2 fi fd d my mx,
    _createHeatmap true state_AB = Returns s1 /\
    build table_AB = inr d /\ data s1 = Some d /\
    _createDendrogram s1 = Returns s2 /\
    pymax (ys d) = Some my /\ pymax (xs d) = Some mx /\
    icoord s2 = CFrame (frame_scale fi (fdiv (Fin my) (frame_max fi))) /\
    dcoord s2 = CFrame (frame_scale fd (fdiv (Fin mx) (frame_max fd))).
Proof.
  pose (s1 := final_state (_createHeatmap true state_AB)).
  pose (s2 := final_state (_createDendrogram s1)).
  destruct (methods_frame true state_AB) as (_ & H1 & _ & _).
  destruct (H1 s1 eq_refl) as (df & d & Hf & Hb & _ & Hd & _).
  injection Hf as <-.
  destruct (methods_frame true s1) as (_ & _ & _ & H2).
  destruct (H2 s2 eq_refl)
    as (fi & fd & d' & my & mx & _ & _ & Hd' & Hy & Hx & Hi & Hdc & _).
  rewrite Hd in Hd'. injection Hd' as <-.
  exists s1, s2, fi, fd, d, my, mx.
  repeat split; assumption.
Defined.

(** C9 fails as stated: the first [_createHeatmap] puts the figure where the
    table was and stores the cell lists, so that the same call on the same
    instance then raises; and [_createDendrogram] puts the rescaled frames
    where the raw coordinate lists were. *)
Lemma methods_overwrite_state :
  exists s1 s2 fig fi fd,
    heatmap state_AB = HTable table_AB /\ data state_AB = None /\
    _createHeatmap true state_AB = Returns s1 /\
    heatmap s1 = HFigure fig /\ data s1 = Some (rect_source fig) /\
    _createHeatmap true s1 = Raises AttributeError s1 /\
    icoord s1 = CList [[5; 5; 15; 15]]%Q /\
    dcoord s1 = CList [[0; 1; 1; 0]]%Q /\
    _createDendrogram s1 = Returns s2 /\
    icoord s2 = CFrame fi /\ dcoord s2 = CFrame fd.
Proof.
  do 5 eexists. repeat split.
Qed.

(** ** Adding data *)

Section AddData.

Variable read_excel : string -> Z -> Exn + DataFrame.
Variable read_csv : string -> Z -> Exn + DataFrame.
Variable dendrogram : DataFrame -> Exn + Dendro.

(** With an empty [type] the call always raises, and nothing is stored. *)
Lemma addData_empty_type (file : string) (index_col : Z) (s : DendroHeat) :
  exists e,
    addData read_excel read_csv dendrogram file index_col "" s = Raises e s.
Proof.
  unfold addData. destruct (String.eqb file ""); [now eexists|].
  destruct (read_table read_excel read_csv file index_col); now eexists.
Qed.

(** With a [type] that is neither ['raw'] nor ['linkage'] nothing is stored,
    whether the call raises or returns. *)
Lemma addData_unknown_type_state (file : string) (index_col : Z)
    (type : string) (s : DendroHeat) :
  type <> "raw"%string -> type <> "linkage"%string ->
  final_state (addData read_excel read_csv dendrogram file index_col type s) = s.
Proof.
  intros Hraw Hlink. apply String.eqb_neq in Hraw, Hlink.
  unfold addData. destruct (String.eqb file ""); [reflexivity|].
  destruct (read_table read_excel read_csv file index_col); [reflexivity|].
  destruct (String.eqb type ""); [reflexivity|].
  now rewrite Hraw, Hlink.
Qed.

End AddData.

(** C10 (as amended): when the file name is not empty and the table is read
    without an error (a read is attempted for [.xlsx] and [.csv] names only),
    a call of [addData] with a non-empty [type] other than ['raw'] and
    ['linkage'] raises nothing and leaves the instance as it was, and the
    call with the empty [type] raises an [AssertionError]. *)
Theorem addData_unknown_type
    (read_excel read_csv : string -> Z -> Exn + DataFrame)
    (dendrogram : DataFrame -> Exn + Dendro)
    (file : string) (index_col : Z) (type : string) (s : DendroHeat)
    (df : option DataFrame) :
  file <> EmptyString ->
  read_table read_excel read_csv file index_col = inr df ->
  type <> EmptyString -> type <> "raw"%string -> type <> "linkage"%string ->
  addData read_excel read_csv dendrogram file index_col type s = Returns s /\
  addData read_excel read_csv dendrogram file index_col "" s
  = Raises AssertionError s.
Proof.
  intros Hfile Hread Hty Hraw Hlink.
  apply String.eqb_neq in Hfile, Hty, Hraw, Hlink.
  unfold addData. rewrite Hfile, Hread, Hty, Hraw, Hlink.
  split; reflexivity.
Qed.

Lemma addData_unknown_type_witness :
  addData read_linkage_AB read_linkage_AB (dendrogram_with [1; 0]%Z)
          "data.csv" 0 "matrix" state_raw_AB = Returns state_raw_AB /\
  addData read_linkage_AB read_linkage_AB (dendrogram_with [1; 0]%Z)
          "data.csv" 0 "" state_raw_AB = Raises AssertionError state_raw_AB.
Proof.
  apply (@addData_unknown_type
           read_linkage_AB read_linkage_AB (dendrogram_with [1; 0]%Z)
           "data.csv" 0%Z "matrix" state_raw_AB (Some linkage_AB)).
  - discriminate.
  - reflexivity.
  - discriminate.
  - discriminate.
  - discriminate.
Defined.

(** C10 fails as stated: with the default, empty file name the call raises
    [FileNotFoundError] before [type] is looked at, and so it does when the
    reader raises. *)
Lemma addData_unknown_type_raises :
  addData read_linkage_AB read_linkage_AB (dendrogram_with [1; 0]%Z)
          "" 0 "matrix" state_raw_AB
  = Raises FileNotFoundError state_raw_AB /\
  addData (fun _ _ => inl (ReadError "no such file")) read_linkage_AB
          (dendrogram_with [1; 0]%Z) "data.xlsx" 0 "matrix" state_raw_AB
  = Raises (ReadError "no such file") state_raw_AB.
Proof.
  split; reflexivity.
Qed.

(** ** The whole program on the documentation example *)

(** With the leaf order [1, 0] the rows come out as B, A, each with its own
    values, and the one branch is drawn between the two row centres. *)
Example main_example :
  exists s' fig d,
    main read_files read_files (dendrogram_with [1; 0]%Z) show_numbers
         "raw.csv" "linkage.csv" = Returns s' /\
    heatmap s' = HFigure fig /\ data s' = Some d /\
    name d = ["B"; "B"; "A"; "A"]%string /\
    value d = [5; 20; 0; 10]%Q /\
    ys d = [1 # 2; 1 # 2; 3 # 2; 3 # 2]%Q /\
    map in_unit (alpha d) = [true; true; true; true] /\
    map snd (lines fig)
    = [[Fin (15 # 30); Fin (15 # 30); Fin (45 # 30); Fin (45 # 30)]].
Proof.
  do 3 eexists. repeat split.
Qed.

(** Without a linkage file [main] still asks for the dendrogram, and
    [pd.DataFrame('')] raises. *)
Example main_raw_only :
  exists s',
    main read_files read_files (dendrogram_with [1; 0]%Z) show_numbers
         "raw.csv" ""
    = Raises ValueError s'.
Proof.
  eexists. reflexivity.
Qed.

(** ** Row labels that occur twice *)









(** ** Row selection by position *)

Lemma iloc_position_accepts (n : nat) (k : Z) :
  iloc_accepts n k ->
  iloc_position n k = Some (Z.to_nat (from_start n k)) /\
  Z.to_nat (from_start n k) < n.
Proof.
  unfold iloc_accepts, iloc_position, from_start. intros Hk.
  destruct (Z.lt_ge_cases k 0) as [Hneg|Hpos].
  - replace ((0 <=? k)%Z && (k <? Z.of_nat n)%Z) with false
      by (symmetry; apply andb_false_iff; left; apply Z.leb_gt; lia).
    replace ((- Z.of_nat n <=? k)%Z && (k <? 0)%Z) with true
      by (symmetry; apply andb_true_iff; split;
          [apply Z.leb_le | apply Z.ltb_lt]; lia).
    replace (k <? 0)%Z with true by (symmetry; apply Z.ltb_lt; lia).
    split; [reflexivity | lia].
  - replace ((0 <=? k)%Z && (k <? Z.of_nat n)%Z) with true
      by (symmetry; apply andb_true_iff; split;
          [apply Z.leb_le | apply Z.ltb_lt]; lia).
    replace (k <? 0)%Z with false by (symmetry; apply Z.ltb_ge; lia).
    split; [reflexivity | lia].
Qed.

Lemma iloc_positions_accepts (n : nat) (ks : list Z) :
  Forall (iloc_accepts n) ks ->
  iloc_positions n ks = Some (map (fun k => Z.to_nat (from_start n k)) ks).
Proof.
  induction 1 as [|k ks Hk _ IH]; simpl; [reflexivity|].
  destruct (iloc_position_accepts Hk) as [-> _]. now rewrite IH.
Qed.

Lemma iloc_positions_some (n : nat) (ks : list Z) (ps : list nat) :
  iloc_positions n ks = Some ps ->
  Forall (iloc_accepts n) ks /\ length ps = length ks /\
  Forall (fun p => p < n) ps.
Proof.
  revert ps. induction ks as [|k ks IH]; intros ps H; simpl in H.
  - injection H as <-. repeat split; constructor.
  - destruct (iloc_position n k) as [p|] eqn:Ek; [|discriminate].
    destruct (iloc_positions n ks) as [ps'|]; [|discriminate].
    injection H as <-. destruct (IH _ eq_refl) as (H1 & H2 & H3).
    assert (Hk : iloc_accepts n k /\ p < n).
    { unfold iloc_position in Ek. unfold iloc_accepts.
      destruct ((0 <=? k)%Z && (k <? Z.of_nat n)%Z) eqn:E1.
      - apply andb_true_iff in E1. destruct E1 as [E1 E2].
        apply Z.leb_le in E1. apply Z.ltb_lt in E2.
        injection Ek as <-. lia.
      - destruct ((- Z.of_nat n <=? k)%Z && (k <? 0)%Z) eqn:E2;
          [|discriminate].
        apply andb_true_iff in E2. destruct E2 as [E2 E3].
        apply Z.leb_le in E2. apply Z.ltb_lt in E3.
        injection Ek as <-. lia. }
    destruct Hk as [Hk Hp]. repeat split.
    + now constructor.
    + simpl. now rewrite H2.
    + now constructor.
Qed.

(** [iloc] refuses exactly the lists with a position outside [-rows, rows). *)
Theorem iloc_succeeds_iff {A} (df : Frame A) (ks : list Z) :
  (exists df', iloc df ks = Some df') <-> Forall (iloc_accepts (nrows df)) ks.
Proof.
  unfold iloc. split.
  - intros [df' H].
    destruct (iloc_positions (nrows df) ks) as [ps|] eqn:E; [|discriminate].
    now destruct (iloc_positions_some _ _ E).
  - intros H. rewrite (iloc_positions_accepts H). now eexists.
Qed.

(** X10: what a successful selection looks like: one row per position, the same
    columns, and a rectangular table stays rectangular. *)
Theorem iloc_shape {A} (df df' : Frame A) (ks : list Z) :
  iloc df ks = Some df' ->
  nrows df' = length ks /\ columns df' = columns df /\
  length (values df') = length ks /\
  (rectangular df -> rectangular df').
Proof.
  unfold iloc. intros H.
  destruct (iloc_positions (nrows df) ks) as [ps|] eqn:E; [|discriminate].
  injection H as <-. destruct (iloc_positions_some _ _ E) as (_ & Hlen & Hps).
  repeat split.
  - unfold nrows. simpl. now rewrite length_map.
  - simpl. now rewrite length_map.
  - destruct (take_rows_rectangular H Hps) as [H1 _]. exact H1.
  - destruct (take_rows_rectangular H Hps) as [_ H2]. exact H2.
Qed.

Lemma iloc_shape_witness :
  nrows (take_rows table_AB [1; 0]) = length [1; 0]%Z /\
  columns (take_rows table_AB [1; 0]) = columns table_AB /\
  length (values (take_rows table_AB [1; 0])) = length [1; 0]%Z /\
  (rectangular table_AB -> rectangular (take_rows table_AB [1; 0])).
Proof.
  apply (@iloc_shape Q table_AB (take_rows table_AB [1; 0]) [1; 0]%Z).
  reflexivity.
Defined.

(** X11: a negative position selects the row that many places before the end: the
    selection is the one of the positions counted from the start. *)
Theorem iloc_from_start {A} (df : Frame A) (ks : list Z) :
  Forall (iloc_accepts (nrows df)) ks ->
  iloc df ks = iloc df (map (from_start (nrows df)) ks) /\
  Forall (fun k => (0 <= k < Z.of_nat (nrows df))%Z)
         (map (from_start (nrows df)) ks).
Proof.
  intros H.
  assert (H' : Forall (fun k => (0 <= k < Z.of_nat (nrows df))%Z)
                      (map (from_start (nrows df)) ks)).
  { apply Forall_map. revert H. apply Forall_impl. intros k.
    unfold iloc_accepts, from_start. destruct (Z.ltb_spec k 0); lia. }
  split; [|exact H'].
  unfold iloc. rewrite (iloc_positions_accepts H).
  rewrite iloc_positions_in_range by exact H'.
  now rewrite map_map.
Qed.

Lemma iloc_from_start_witness :
  iloc table_AB [-1; 0]%Z = iloc table_AB (map (from_start (nrows table_AB)) [-1; 0]%Z) /\
  Forall (fun k => (0 <= k < Z.of_nat (nrows table_AB))%Z)
         (map (from_start (nrows table_AB)) [-1; 0]%Z).
Proof.
  apply (@iloc_from_start Q table_AB [-1; 0]%Z).
  repeat constructor; unfold nrows; simpl; lia.
Defined.

(** X12: selecting every position in turn gives the table back. *)
Theorem iloc_identity {A} (df : Frame A) :
  length (values df) = nrows df ->
  iloc df (map Z.of_nat (seq 0 (nrows df))) = Some df.
Proof.
  intros Hlen. unfold iloc.
  rewrite iloc_positions_in_range.
  - rewrite map_map.
    rewrite (map_ext _ (fun i => i)) by (intros; apply Nat2Z.id).
    rewrite map_id. unfold take_rows.
    unfold nrows in *. rewrite map_nth_seq.
    rewrite <- Hlen, map_nth_seq. now destruct df.
  - apply Forall_forall. intros k Hk. apply in_map_iff in Hk.
    destruct Hk as (i & <- & Hi). apply in_seq in Hi. lia.
Qed.

Lemma iloc_identity_witness :
  iloc table_AB (map Z.of_nat (seq 0 (nrows table_AB))) = Some table_AB.
Proof.
  apply (@iloc_identity Q table_AB). reflexivity.
Defined.

(** X13: two selections in a row are one selection: row [i] of the second result
    is the row of the original table at position [ks[ks'[i]]]. *)
Theorem iloc_compose {A} (df df1 : Frame A) (ks ks' : list Z) :
  Forall (fun k => (0 <= k < Z.of_nat (nrows df))%Z) ks ->
  Forall (fun k => (0 <= k < Z.of_nat (length ks))%Z) ks' ->
  iloc df ks = Some df1 ->
  iloc df1 ks' = iloc df (map (fun k' => nth (Z.to_nat k') ks 0%Z) ks').
Proof.
  intros Hks Hks' H1.
  unfold iloc in H1. rewrite iloc_positions_in_range in H1 by exact Hks.
  injection H1 as <-.
  unfold iloc at 1. rewrite iloc_positions_in_range
    by (unfold nrows; simpl; rewrite !length_map; exact Hks').
  unfold iloc. rewrite iloc_positions_in_range.
  - f_equal. unfold take_rows. simpl. rewrite !map_map. f_equal.
    + apply map_ext_in. intros k' Hk'.
      rewrite Forall_forall in Hks'. specialize (Hks' _ Hk').
      now rewrite (nth_map_default _ _ _ 0%Z) by lia.
    + apply map_ext_in. intros k' Hk'.
      rewrite Forall_forall in Hks'. specialize (Hks' _ Hk').
      now rewrite (nth_map_default _ _ _ 0%Z) by lia.
  - apply Forall_map, Forall_forall. intros k' Hk'.
    rewrite Forall_forall in Hks, Hks'. specialize (Hks' _ Hk').
    apply Hks, nth_In. lia.
Qed.

Lemma iloc_compose_witness :
  iloc (take_rows table_AB [1; 0]) [1; 0]%Z
  = iloc table_AB (map (fun k' => nth (Z.to_nat k') [1; 0]%Z 0%Z) [1; 0]%Z).
Proof.
  apply (@iloc_compose Q table_AB (take_rows table_AB [1; 0])
           [1; 0]%Z [1; 0]%Z).
  - repeat constructor; unfold nrows; simpl; lia.
  - repeat constructor; simpl; lia.
  - reflexivity.
Defined.

(** X14: reordering by a leaf order loses no row and repeats none: the labelled
    rows of the result are the labelled rows of the table, rearranged. *)
Theorem iloc_leaf_order_rows {A} (df : Frame A) (ks : list Z) :
  length (values df) = nrows df -> leaf_order (nrows df) ks ->
  exists df',
    iloc df ks = Some df' /\
    Permutation (combine (index df') (values df'))
                (combine (index df) (values df)).
Proof.
  intros Hlen Hlo.
  pose proof (leaf_order_in_range Hlo) as Hrange.
  pose proof (leaf_order_positions Hlo) as Hperm.
  exists (take_rows df (map Z.to_nat ks)). split.
  - unfold iloc. now rewrite iloc_positions_in_range by exact Hrange.
  - simpl.
    set (row := fun p => (nth p (index df) EmptyString, nth p (values df) [])).
    assert (E1 : forall ps,
               combine (map (fun p => nth p (index df) EmptyString) ps)
                       (map (fun p => nth p (values df) []) ps)
               = map row ps).
    { induction ps as [|p ps IH]; simpl; [reflexivity | now rewrite IH]. }
    rewrite E1.
    assert (E2 : combine (index df) (values df) = map row (seq 0 (nrows df))).
    { rewrite <- E1. unfold nrows. rewrite map_nth_seq.
      unfold nrows in Hlen. rewrite <- Hlen, map_nth_seq. reflexivity. }
    rewrite E2. now apply Permutation_map.
Qed.

Lemma iloc_leaf_order_rows_witness :
  exists df',
    iloc table_AB [1; 0]%Z = Some df' /\
    Permutation (combine (index df') (values df'))
                (combine (index table_AB) (values table_AB)).
Proof.
  apply (@iloc_leaf_order_rows Q table_AB [1; 0]%Z).
  - reflexivity.
  - unfold leaf_order. simpl. apply perm_swap.
Defined.

(** ** One cell of the heatmap *)

Lemma nth_repeat_lt {A} (a d : A) (c j : nat) :
  j < c -> nth j (repeat a c) d = a.
Proof.
  revert j. induction c as [|c IH]; intros j Hj; [lia|].
  destruct j as [|j]; simpl; [reflexivity | apply IH; lia].
Qed.

(** X2: the entries at one position of the lists belong to one cell: position
    [i * columns + j] holds the label of row [i], the name of column [j], the
    centre [(j + 1/2, i + 1/2)] and the value of the table at [(i, j)]. *)
Theorem cell_record (df : DataFrame) (i j : nat) :
  rectangular df -> NoDup (index df) -> i < nrows df -> j < ncols df ->
  exists d,
    build df = inr d /\
    nth (i * ncols df + j) (name d) EmptyString = nth i (index df) EmptyString /\
    nth (i * ncols df + j) (attribute d) EmptyString
    = nth j (columns df) EmptyString /\
    nth (i * ncols df + j) (xs d) 0%Q = (inject_Z (Z.of_nat j) + half)%Q /\
    nth (i * ncols df + j) (ys d) 0%Q = (inject_Z (Z.of_nat i) + half)%Q /\
    nth (i * ncols df + j) (value d) 0%Q = nth j (nth i (values df) []) 0%Q.
Proof.
  intros Hrect Hnd Hi Hj. exists (layout df).
  split; [now apply build_layout|].
  destruct Hrect as [Hlen Hrows]. unfold nrows in *.
  cbn [name attribute xs ys value layout]. rewrite !flat_map_concat_map.
  repeat split.
  - rewrite (nth_concat_grid (c := ncols df));
      [| apply Forall_map, Forall_forall; intros; apply repeat_length
       | now rewrite length_map | exact Hj].
    rewrite (nth_map_default _ _ _ EmptyString) by exact Hi.
    now apply nth_repeat_lt.
  - rewrite (nth_concat_grid (c := ncols df));
      [| apply Forall_map, Forall_forall; intros; reflexivity
       | now rewrite length_map | exact Hj].
    now rewrite (nth_map_default _ _ _ EmptyString) by exact Hi.
  - rewrite (nth_concat_grid (c := ncols df));
      [| apply Forall_map, Forall_forall; intros; apply arange_half_length
       | now rewrite length_map | exact Hj].
    rewrite (nth_map_default _ _ _ EmptyString) by exact Hi.
    unfold arange_half.
    rewrite (nth_map_default _ _ _ 0) by now rewrite length_seq.
    now rewrite seq_nth.
  - rewrite (nth_concat_grid (c := ncols df));
      [| apply Forall_map, Forall_forall; intros; apply repeat_length
       | now rewrite length_map, length_seq | exact Hj].
    rewrite (nth_map_default _ _ _ 0) by now rewrite length_seq.
    rewrite seq_nth by exact Hi. now apply nth_repeat_lt.
  - apply nth_concat_grid; [exact Hrows | lia | exact Hj].
Qed.

Lemma cell_record_witness :
  exists d,
    build table_AB = inr d /\
    nth (1 * ncols table_AB + 0) (name d) EmptyString
    = nth 1 (index table_AB) EmptyString /\
    nth (1 * ncols table_AB + 0) (attribute d) EmptyString
    = nth 0 (columns table_AB) EmptyString /\
    nth (1 * ncols table_AB + 0) (xs d) 0%Q = (inject_Z (Z.of_nat 0) + half)%Q /\
    nth (1 * ncols table_AB + 0) (ys d) 0%Q = (inject_Z (Z.of_nat 1) + half)%Q /\
    nth (1 * ncols table_AB + 0) (value d) 0%Q
    = nth 0 (nth 1 (values table_AB) []) 0%Q.
Proof.
  apply (@cell_record table_AB 1 0).
  - split; [reflexivity | repeat constructor].
  - repeat constructor; simpl; intuition discriminate.
  - unfold nrows. simpl. lia.
  - unfold ncols. simpl. lia.
Defined.

(** X3: every cell centre lies strictly inside the ranges of the figure,
    [0 .. columns] across and [0 .. rows] up. *)
Theorem centres_inside (df : DataFrame) :
  rectangular df -> NoDup (index df) ->
  exists d,
    build df = inr d /\
    Forall (fun q => (0 < q < inject_Z (Z.of_nat (ncols df)))%Q) (xs d) /\
    Forall (fun q => (0 < q < inject_Z (Z.of_nat (nrows df)))%Q) (ys d).
Proof.
  intros Hrect Hnd. exists (layout df).
  split; [now apply build_layout|].
  assert (Hc : forall k n, k < n ->
             (0 < inject_Z (Z.of_nat k) + half < inject_Z (Z.of_nat n))%Q).
  { intros k n Hk. unfold half.
    assert (H0 : (0 <= Z.of_nat k)%Z) by lia.
    assert (H1 : (Z.of_nat k + 1 <= Z.of_nat n)%Z) by lia.
    rewrite Zle_Qle in H0, H1. rewrite inject_Z_plus in H1.
    change (inject_Z 0) with 0%Q in H0. change (inject_Z 1) with 1%Q in H1.
    lra. }
  split; apply Forall_forall; intros q Hq.
  - apply in_layout_xs in Hq. destruct Hq as (j & Hj & _ & ->). now apply Hc.
  - apply in_layout_ys in Hq. destruct Hq as (i & Hi & _ & ->). now apply Hc.
Qed.

Lemma centres_inside_witness :
  exists d,
    build table_AB = inr d /\
    Forall (fun q => (0 < q < inject_Z (Z.of_nat (ncols table_AB)))%Q) (xs d) /\
    Forall (fun q => (0 < q < inject_Z (Z.of_nat (nrows table_AB)))%Q) (ys d).
Proof.
  apply (@centres_inside table_AB).
  - split; [reflexivity | repeat constructor].
  - repeat constructor; simpl; intuition discriminate.
Defined.

(** ** Intensities within a column *)






(** ** Colours, in general *)

Lemma cell_color_witness :
  exists d,
    build table_23 = inr d /\
    nth (1 * ncols table_23 + 0) (colors d) EmptyString
    = nth ((1 * ncols table_23 + 0) mod 10) crange EmptyString.
Proof.
  apply (@cell_color table_23 1 0).
  - split; [reflexivity | repeat constructor].
  - repeat constructor; simpl; intuition discriminate.
  - unfold nrows, ncols. simpl. lia.
Defined.

(** X7: with 10 or 20 columns every row starts at a multiple of 10 in the flat
    list, and the cell of column [j] is paired with palette entry
    [j mod 10]. *)
Theorem column_color_tens (df : DataFrame) (i j : nat) :
  rectangular df -> NoDup (index df) ->
  ncols df = 10 \/ ncols df = 20 ->
  i < nrows df -> j < ncols df ->
  exists d,
    build df = inr d /\
    nth (i * ncols df + j) (colors d) EmptyString
    = nth (j mod 10) crange EmptyString.
Proof.
  intros Hrect Hnd Hc Hi Hj. exists (layout df).
  split; [now apply build_layout|].
  rewrite layout_colors_nth by (destruct Hc as [E|E]; rewrite E in *; nia).
  f_equal. destruct Hc as [E|E]; rewrite E.
  - rewrite Nat.add_comm. apply Nat.Div0.mod_add.
  - replace (i * 20 + j) with (j + (i * 2) * 10) by lia.
    apply Nat.Div0.mod_add.
Qed.

(** X8: the colour list has one entry per cell only when the table has 20
    columns (or no row). *)
Theorem colors_one_per_cell (df : DataFrame) :
  rectangular df -> NoDup (index df) ->
  exists d,
    build df = inr d /\
    (length (colors d) = length (value d) <-> nrows df = 0 \/ ncols df = 20).
Proof.
  intros Hrect Hnd. exists (layout df).
  split; [now apply build_layout|].
  destruct (layout_lengths Hrect) as (_ & _ & _ & _ & Hv & _).
  rewrite layout_colors_length, Hv. split; intros H; nia.
Qed.

Lemma colors_one_per_cell_witness :
  exists d,
    build table_23 = inr d /\
    (length (colors d) = length (value d)
     <-> nrows table_23 = 0 \/ ncols table_23 = 20).
Proof.
  apply (@colors_one_per_cell table_23).
  - split; [reflexivity | repeat constructor].
  - repeat constructor; simpl; intuition discriminate.
Defined.

Lemma column_color_tens_witness :
  exists d,
    build table_ten = inr d /\
    nth (0 * ncols table_ten + 3) (colors d) EmptyString
    = nth (3 mod 10) crange EmptyString.
Proof.
  apply (@column_color_tens table_ten 0 3).
  - split; [reflexivity | repeat constructor].
  - repeat constructor; simpl; intuition discriminate.
  - left. reflexivity.
  - unfold nrows. simpl. lia.
  - unfold ncols. simpl. lia.
Defined.

Lemma build_layout_witness : build table_AB = inr (layout table_AB).
Proof.
  apply (@build_layout table_AB).
  - split; [reflexivity | repeat constructor].
  - repeat constructor; simpl; intuition discriminate.
Defined.

(** ** The frames made of the tree coordinates *)

(** [pd.DataFrame] makes every row as long as the longest list. *)
Theorem frame_of_lists_rows (l : list (list Q)) :
  length (frame_of_lists l) = length l /\
  Forall (fun r => length r = list_max (map (@length Q) l)) (frame_of_lists l).
Proof.
  unfold frame_of_lists. split; [apply length_map|].
  apply Forall_map, Forall_forall. intros r Hr. unfold pad_row.
  rewrite length_app, length_map, repeat_length.
  assert (H : length r <= list_max (map (@length Q) l)).
  { pose proof (proj1 (list_max_le (map (@length Q) l) _) (le_n _)) as Hall.
    rewrite Forall_forall in Hall. apply Hall. now apply in_map. }
  lia.
Qed.

Lemma fold_nanmax_fill (n : nat) (acc : fnum) :
  fold_left nanmax2 (repeat NaN n) acc = acc.
Proof.
  induction n as [|n IH]; simpl; [reflexivity|].
  now destruct acc.
Qed.

Lemma fold_nanmax_pad (w : nat) (l : list (list Q)) :
  forall acc,
    fold_left nanmax2 (concat (map (pad_row w) l)) acc
    = fold_left nanmax2 (map Fin (concat l)) acc.
Proof.
  induction l as [|r l IH]; intros acc; simpl; [reflexivity|].
  unfold pad_row at 1.
  rewrite map_app, !fold_left_app, fold_nanmax_fill. apply IH.
Qed.

Lemma fold_nanmax_fin (t : list Q) :
  forall x,
    fold_left nanmax2 (map Fin t) (Fin x)
    = Fin (fold_left (fun m y => if Qle_bool y m then m else y) t x).
Proof.
  induction t as [|y t IH]; intros x; simpl; [reflexivity|].
  destruct (Qle_bool y x); simpl; apply IH.
Qed.

(** X19: the largest value taken for the scaling is the largest entry of the raw
    lists: the filling does not count, and without any entry it is [NaN]. *)
Theorem frame_max_of_lists (l : list (list Q)) :
  (concat l = [] -> frame_max (frame_of_lists l) = NaN) /\
  (concat l <> [] ->
   exists g, frame_max (frame_of_lists l) = Fin g /\ In g (concat l) /\
             forall a, In a (concat l) -> (a <= g)%Q).
Proof.
  unfold frame_max, frame_of_lists, nanmax. rewrite fold_nanmax_pad.
  destruct (concat l) as [|x t].
  - split; [reflexivity | congruence].
  - split; [discriminate|]. intros _. simpl.
    rewrite fold_nanmax_fin. eexists. split; [reflexivity|].
    apply pymax_fold_spec.
Qed.

Lemma frame_max_of_lists_witness :
  exists g, frame_max (frame_of_lists [[5; 5; 15; 15]]%Q) = Fin g /\
            In g (concat [[5; 5; 15; 15]]%Q) /\
            forall a, In a (concat [[5; 5; 15; 15]]%Q) -> (a <= g)%Q.
Proof.
  apply (proj2 (frame_max_of_lists [[5; 5; 15; 15]]%Q)). discriminate.
Defined.

(** ** Where the tree is drawn *)








(** ** Calls that cannot succeed *)

(** X21: when the largest raw depth is 0 the method still returns, with as many
    depth rows as before, and none of the depths it stores is a number. *)
Theorem createDendrogram_zero_depth (s : DendroHeat) (fig : Figure) (d : Data)
    (ic dc : list (list Q)) (my mx gd : Q) :
  linkage s <> LNone ->
  icoord s = CList ic -> dcoord s = CList dc ->
  data s = Some d -> heatmap s = HFigure fig ->
  pymax (ys d) = Some my -> pymax (xs d) = Some mx -> (0 < mx)%Q ->
  frame_max (frame_of_lists dc) = Fin gd -> (gd == 0)%Q ->
  exists s' fd,
    _createDendrogram s = Returns s' /\
    dcoord s' = CFrame fd /\ length fd = length dc /\
    Forall (Forall not_finite) fd.
Proof.
  intros Hl Hi Hd Hdata Hfig Hmy Hmx Hmx0 Hgd Hgd0.
  assert (Hfac : fdiv (Fin mx) (Fin gd) = PInf).
  { simpl. replace (Qeq_bool gd 0) with true
      by (symmetry; now apply Qeq_bool_iff).
    now apply inf_of_sign_pos. }
  exists (final_state (_createDendrogram s)),
         (frame_scale (frame_of_lists dc) PInf).
  assert (E : exists fig',
             _createDendrogram s
             = Returns (set_heatmap (HFigure fig')
                          (set_dcoord (CFrame (frame_scale (frame_of_lists dc) PInf))
                             (set_icoord
                                (CFrame (frame_scale (frame_of_lists ic)
                                           (fdiv (Fin my) (frame_max (frame_of_lists ic)))))
                                (set_dcoord (CFrame (frame_of_lists dc))
                                   (set_icoord (CFrame (frame_of_lists ic)) s)))))).
  { unfold _createDendrogram.
    destruct (linkage s) eqn:El; [contradiction| |];
      rewrite Hi; cbn [pd_DataFrame set_icoord dcoord]; rewrite Hd;
      cbn [pd_DataFrame set_dcoord set_icoord data]; rewrite Hdata, Hmy, Hmx;
      rewrite Hgd, Hfac;
      (erewrite draw_lines_figure by (simpl; exact Hfig));
      eexists; reflexivity. }
  destruct E as [fig' E]. rewrite E. cbn [final_state].
  split; [reflexivity|]. split; [reflexivity|]. split.
  - unfold frame_scale. rewrite length_map.
    apply (proj1 (frame_of_lists_rows dc)).
  - unfold frame_scale. apply Forall_map, Forall_forall. intros r _.
    apply Forall_map, Forall_forall. intros x _.
    destruct x as [q| | |]; simpl; auto.
    unfold inf_of_sign. now destruct (q ?= 0)%Q.
Qed.

Lemma createDendrogram_zero_depth_witness :
  exists s' fd,
    _createDendrogram state_twins_drawn = Returns s' /\
    dcoord s' = CFrame fd /\ length fd = length [[0; 0; 0; 0]]%Q /\
    Forall (Forall not_finite) fd.
Proof.
  eapply (@createDendrogram_zero_depth state_twins_drawn).
  - discriminate.
  - reflexivity.
  - reflexivity.
  - reflexivity.
  - reflexivity.
  - reflexivity.
  - reflexivity.
  - reflexivity.
  - reflexivity.
  - reflexivity.
Defined.

(** X22: asking for the dendrogram alone fails: the cell lists it is scaled to do
    not exist, and by the time this is found out the raw coordinate lists
    have been replaced by their frames. *)
Theorem dendrogram_needs_heatmap
    (bokeh_show : OutputTarget -> HeatmapField -> option Exn)
    (output : string) (s : DendroHeat) (ic dc : list (list Q)) :
  data s = None -> linkage s <> LNone ->
  icoord s = CList ic -> dcoord s = CList dc ->
  show bokeh_show output false true s
  = Raises AttributeError
      (set_dcoord (CFrame (frame_of_lists dc))
         (set_icoord (CFrame (frame_of_lists ic)) s)).
Proof.
  intros Hdata Hl Hi Hd. unfold show, and_then, _createDendrogram.
  destruct (linkage s); [contradiction| |];
    rewrite Hi; cbn [pd_DataFrame set_icoord dcoord]; rewrite Hd;
    cbn [pd_DataFrame set_dcoord set_icoord data]; now rewrite Hdata.
Qed.

Lemma dendrogram_needs_heatmap_witness :
  show show_numbers "html" false true state_AB
  = Raises AttributeError
      (set_dcoord (CFrame (frame_of_lists [[0; 1; 1; 0]]%Q))
         (set_icoord (CFrame (frame_of_lists [[5; 5; 15; 15]]%Q)) state_AB)).
Proof.
  apply (@dendrogram_needs_heatmap show_numbers "html" state_AB
           [[5; 5; 15; 15]]%Q [[0; 1; 1; 0]]%Q).
  - reflexivity.
  - discriminate.
  - reflexivity.
  - reflexivity.
Defined.

Section Program.

Variable read_excel : string -> Z -> Exn + DataFrame.
Variable read_csv : string -> Z -> Exn + DataFrame.
Variable dendrogram : DataFrame -> Exn + Dendro.
Variable bokeh_show : OutputTarget -> HeatmapField -> option Exn.

(** X23: without a linkage file [main] never gets to the end: it asks for the
    dendrogram all the same, and at the latest [pd.DataFrame('')] raises. *)
Theorem main_needs_linkage (raw : string) :
  exists e s',
    main read_excel read_csv dendrogram bokeh_show raw "" = Raises e s'.
Proof.
  unfold main, addData.
  destruct (String.eqb raw ""); [simpl; eauto|].
  destruct (read_table read_excel read_csv raw 0) as [e|[t|]];
    [simpl; eauto | | simpl; eauto].
  cbn [String.eqb Ascii.eqb Bool.eqb and_then addData_raw].
  unfold show, and_then, _createHeatmap. cbn [heatmap set_heatmap __init__].
  destruct (build t) as [e|d]; [eauto|].
  unfold _createDendrogram. simpl. eauto.
Qed.

(** X24: with a readable table of distinct row labels the heatmap is made first,
    and the error is the [ValueError] of the dendrogram. *)
Theorem main_stops_at_dendrogram (raw : string) (t : DataFrame) :
  raw <> EmptyString ->
  read_table read_excel read_csv raw 0 = inr (Some t) ->
  rectangular t -> NoDup (index t) ->
  exists fig,
    main read_excel read_csv dendrogram bokeh_show raw ""
    = Raises ValueError
        {| heatmap := HFigure fig; linkage := LStr "";
           icoord := CStr ""; dcoord := CStr "";
           data := Some (layout t); source := Some (layout t) |} /\
    rect_source fig = layout t /\ lines fig = [].
Proof.
  intros Hraw Hread Hrect Hnd. apply String.eqb_neq in Hraw.
  unfold main, addData. rewrite Hraw, Hread.
  cbn [String.eqb Ascii.eqb Bool.eqb and_then addData_raw].
  unfold show, and_then, _createHeatmap. cbn [heatmap set_heatmap __init__].
  rewrite build_layout by assumption.
  unfold _createDendrogram. simpl. eexists. repeat split.
Qed.

End Program.

Lemma main_stops_at_dendrogram_witness :
  exists fig,
    main read_files read_files (dendrogram_with [1; 0]%Z) show_numbers
         "raw.csv" ""
    = Raises ValueError
        {| heatmap := HFigure fig; linkage := LStr "";
           icoord := CStr ""; dcoord := CStr "";
           data := Some (layout table_AB); source := Some (layout table_AB) |} /\
    rect_source fig = layout table_AB /\ lines fig = [].
Proof.
  apply (@main_stops_at_dendrogram read_files read_files (dendrogram_with [1; 0]%Z)
           show_numbers
           "raw.csv" table_AB).
  - discriminate.
  - reflexivity.
  - split; [reflexivity | repeat constructor].
  - repeat constructor; simpl; intuition discriminate.
Defined.

(** ** More on adding data *)

Section AddDataMore.

Variable read_excel : string -> Z -> Exn + DataFrame.
Variable read_csv : string -> Z -> Exn + DataFrame.
Variable dendrogram : DataFrame -> Exn + Dendro.

(** X15: a file whose name ends neither in [.xlsx] nor in [.csv] is not read at
    all, and both data types then fail on the unbound [df]. *)
Theorem addData_unknown_suffix (file : string) (index_col : Z)
    (type : string) (s : DendroHeat) :
  file <> EmptyString ->
  endswith file ".xlsx" = false -> endswith file ".csv" = false ->
  type = "raw"%string \/ type = "linkage"%string ->
  addData read_excel read_csv dendrogram file index_col type s
  = Raises UnboundLocalError s.
Proof.
  intros Hfile Hx Hc Hty. apply String.eqb_neq in Hfile.
  unfold addData, read_table. rewrite Hfile, Hx, Hc.
  destruct Hty as [-> | ->]; reflexivity.
Qed.

(** X16: the linkage matrix cannot come first: the matrix and the tree
    coordinates are stored, and then the row selection fails on whatever
    [self.heatmap] holds in place of a table. *)
Theorem addData_linkage_before_raw (file : string) (index_col : Z)
    (s : DendroHeat) (lk : DataFrame) (dn : Dendro) :
  file <> EmptyString ->
  read_table read_excel read_csv file index_col = inr (Some lk) ->
  dendrogram lk = inr dn ->
  (forall t, heatmap s <> HTable t) ->
  addData read_excel read_csv dendrogram file index_col "linkage" s
  = Raises AttributeError
      {| heatmap := heatmap s; linkage := LTable lk;
         icoord := CList (dn_icoord dn); dcoord := CList (dn_dcoord dn);
         data := data s; source := source s |}.
Proof.
  intros Hfile Hread Hdn Hh. apply String.eqb_neq in Hfile.
  unfold addData. rewrite Hfile, Hread.
  cbn [String.eqb Ascii.eqb Bool.eqb and_then].
  unfold addData_linkage. rewrite Hdn.
  cbn [heatmap set_dcoord set_icoord].
  destruct (heatmap s) as [| |t|] eqn:E; try reflexivity.
  now destruct (Hh t).
Qed.

(** X17: with a table in place and positions that [iloc] accepts, the call
    returns: the table is replaced by the selected rows, the matrix and the
    tree coordinates are stored, the cell lists are left alone. *)
Theorem addData_linkage_stores (file : string) (index_col : Z)
    (s : DendroHeat) (tbl lk : DataFrame) (dn : Dendro) :
  file <> EmptyString ->
  read_table read_excel read_csv file index_col = inr (Some lk) ->
  dendrogram lk = inr dn ->
  heatmap s = HTable tbl ->
  Forall (iloc_accepts (nrows tbl)) (dn_ivl dn) ->
  addData read_excel read_csv dendrogram file index_col "linkage" s
  = Returns
      {| heatmap :=
           HTable (take_rows tbl
                     (map (fun k => Z.to_nat (from_start (nrows tbl) k))
                          (dn_ivl dn)));
         linkage := LTable lk;
         icoord := CList (dn_icoord dn); dcoord := CList (dn_dcoord dn);
         data := data s; source := source s |}.
Proof.
  intros Hfile Hread Hdn Hh Hacc. apply String.eqb_neq in Hfile.
  unfold addData. rewrite Hfile, Hread.
  cbn [String.eqb Ascii.eqb Bool.eqb and_then].
  unfold addData_linkage. rewrite Hdn.
  cbn [heatmap set_dcoord set_icoord]. rewrite Hh.
  unfold iloc. now rewrite (iloc_positions_accepts Hacc).
Qed.

(** X18: [addData] never touches the cell lists, and unless the type is
    ['linkage'] it touches neither the linkage matrix nor the tree
    coordinates. *)
Theorem addData_keeps (file : string) (index_col : Z) (type : string)
    (s : DendroHeat) :
  let s' := final_state
              (addData read_excel read_csv dendrogram file index_col type s) in
  data s' = data s /\ source s' = source s /\
  (type <> "linkage"%string ->
   linkage s' = linkage s /\ icoord s' = icoord s /\ dcoord s' = dcoord s).
Proof.
  unfold addData.
  destruct (String.eqb file ""); [simpl; auto|].
  destruct (read_table read_excel read_csv file index_col) as [e|df];
    [simpl; auto|].
  destruct (String.eqb type ""); [simpl; auto|].
  destruct (String.eqb_spec type "linkage") as [->|Hl].
  - cbn [String.eqb Ascii.eqb Bool.eqb and_then]. unfold addData_linkage.
    destruct df as [t|]; [|simpl; intuition congruence].
    destruct (dendrogram t) as [e|dn]; [simpl; intuition congruence|].
    cbn [heatmap set_dcoord set_icoord].
    destruct (heatmap s) as [| |tbl|]; try (simpl; intuition congruence).
    destruct (iloc tbl (dn_ivl dn)); simpl; intuition congruence.
  - destruct (String.eqb type "raw"); [|simpl; auto].
    unfold addData_raw. destruct df; simpl; auto.
Qed.

End AddDataMore.

Lemma addData_unknown_suffix_witness :
  addData read_files read_files (dendrogram_with [1; 0]%Z)
          "data.txt" 0 "raw" __init__
  = Raises UnboundLocalError __init__.
Proof.
  apply (@addData_unknown_suffix read_files read_files
           (dendrogram_with [1; 0]%Z) "data.txt" 0%Z "raw" __init__).
  - discriminate.
  - reflexivity.
  - reflexivity.
  - left. reflexivity.
Defined.

Lemma addData_linkage_before_raw_witness :
  addData read_files read_files (dendrogram_with [1; 0]%Z)
          "linkage.csv" 0 "linkage" __init__
  = Raises AttributeError
      {| heatmap := heatmap __init__; linkage := LTable linkage_AB;
         icoord := CList [[5; 5; 15; 15]]%Q; dcoord := CList [[0; 1; 1; 0]]%Q;
         data := data __init__; source := source __init__ |}.
Proof.
  apply (@addData_linkage_before_raw read_files read_files
           (dendrogram_with [1; 0]%Z) "linkage.csv" 0%Z __init__ linkage_AB
           {| dn_icoord := [[5; 5; 15; 15]]%Q;
              dn_dcoord := [[0; 1; 1; 0]]%Q;
              dn_ivl := [1; 0]%Z |}).
  - discriminate.
  - reflexivity.
  - reflexivity.
  - intros t. discriminate.
Defined.

Lemma addData_linkage_stores_witness :
  addData read_files read_files (dendrogram_with [-1; 0]%Z)
          "linkage.csv" 0 "linkage" state_raw_AB
  = Returns
      {| heatmap :=
           HTable (take_rows table_AB
                     (map (fun k => Z.to_nat (from_start (nrows table_AB) k))
                          [-1; 0]%Z));
         linkage := LTable linkage_AB;
         icoord := CList [[5; 5; 15; 15]]%Q; dcoord := CList [[0; 1; 1; 0]]%Q;
         data := data state_raw_AB; source := source state_raw_AB |}.
Proof.
  apply (@addData_linkage_stores read_files read_files
           (dendrogram_with [-1; 0]%Z) "linkage.csv" 0%Z state_raw_AB
           table_AB linkage_AB
           {| dn_icoord := [[5; 5; 15; 15]]%Q;
              dn_dcoord := [[0; 1; 1; 0]]%Q;
              dn_ivl := [-1; 0]%Z |}).
  - discriminate.
  - reflexivity.
  - reflexivity.
  - reflexivity.
  - repeat constructor; unfold nrows; simpl; lia.
Defined.

Lemma addData_keeps_witness :
  linkage (final_state
             (addData read_files read_files (dendrogram_with [1; 0]%Z)
                      "raw.csv" 0 "raw" state_AB))
  = linkage state_AB.
Proof.
  refine (proj1 (proj2 (proj2
            (@addData_keeps read_files read_files (dendrogram_with [1; 0]%Z)
               "raw.csv" 0%Z "raw" state_AB)) _)).
  discriminate.
Defined.

(** ** The whole program *)


